(** * Cereja progress display: a shallow embedding of [cereja/display.py]

    The development follows the progress engine of the module: the render
    states ([__StateBar], [__StatePercent], [__StateTime], [__StateLoading],
    [__StateAwaiting]), the session [ProgressBase] with its life cycle, the
    context-manager protocol and the generator of [ProgressIterator].

    Modelling conventions.
    - Progress values and maximum values are Python ints, embedded as [Z].
      Derived quantities that are floats in Python (the percentage, times)
      are embedded as exact rationals [Q]; rounding of binary floats is not
      modelled.
    - [str] is [string]; [len] is [String.length]; [s * n] is [str_mul].
    - A tuple of states is a [list State]; states are compared by identity,
      and the module creates one instance per class, so a state is its
      variant.
    - The console is an append-only trace of the calls made on it.
    - [time.time()] is an oracle: the k-th reading is [time_time k].
    - The awaiting thread only leaves its start and join in the trace; the
      lines it writes concurrently are outside the model. *)

From Stdlib Require Import ZArith QArith Qround Qabs String Ascii List Lia Bool.
From Stdlib Require Import DecimalString.
From stdpp Require Import base decidable list.

Import ListNotations.
Local Open Scope Z_scope.
Local Open Scope string_scope.

(** ** Python string primitives *)

Global Instance string_eq_dec : EqDecision string := string_dec.

Module PyStr.

Fixpoint repeat_nat (s : string) (n : nat) : string :=
  match n with
  | O => EmptyString
  | S k => s ++ repeat_nat s k
  end.

(** [s * n]: the empty string when [n <= 0]. *)
Definition str_mul (s : string) (n : Z) : string := repeat_nat s (Z.to_nat n).

(** [len(s)] as a Python int. *)
Definition len (s : string) : Z := Z.of_nat (String.length s).

(** [sep.join(parts)] *)
Definition join (sep : string) (parts : list string) : string :=
  String.concat sep parts.

(** [str(n)] for an int. *)
Definition str_of_Z (n : Z) : string := NilZero.string_of_int (Z.to_int n).

(** [int(x)] for a float: truncation toward zero. *)
Definition int_of_Q (x : Q) : Z := Z.quot (Qnum x) (Zpos (Qden x)).

(** Nearest integer of a non-negative rational, ties to even: the rounding
    of the [f] presentation type. *)
Definition round_half_even (a : Q) : Z :=
  let fl := Qfloor a in
  let r := (a - inject_Z fl)%Q in
  match (r ?= 1 # 2)%Q with
  | Lt => fl
  | Gt => fl + 1
  | Eq => if Z.even fl then fl else fl + 1
  end.

Definition two_digits (n : Z) : string :=
  str_of_Z (n / 10) ++ str_of_Z (n mod 10).

(** [f"{x:.2f}"] *)
Definition format_2f (x : Q) : string :=
  let cents := round_half_even (Qabs x * 100)%Q in
  let sign := if Qlt_le_dec x 0 then "-" else EmptyString in
  sign ++ str_of_Z (cents / 100) ++ "." ++ two_digits (cents mod 100).

Definition mem_ascii (c : ascii) (chars : string) : bool :=
  existsb (Ascii.eqb c) (list_ascii_of_string chars).

Fixpoint lstrip (chars s : string) : string :=
  match s with
  | EmptyString => EmptyString
  | String c rest => if mem_ascii c chars then lstrip chars rest else s
  end.

Definition rev_string (s : string) : string :=
  string_of_list_ascii (rev (list_ascii_of_string s)).

(** [s.strip(chars)] *)
Definition strip (chars s : string) : string :=
  rev_string (lstrip chars (rev_string (lstrip chars s))).

End PyStr.
Import PyStr.

(** ** Render states *)

(** The keyword arguments every state receives. *)
Record kwargs := {
  current_value : Z;
  kw_max_value : Z;
  current_percent : Q;
  time_it : Q;
  kw_n_times : Z
}.

(** Modelled from the spec: [cereja.utils.percent] is not part of the
    sources at hand; the specification gives
    [percent = (current / max) * 100]. *)
Definition percent (from_ to : Z) : Q :=
  ((inject_Z from_ / inject_Z to) * 100)%Q.

(** Modelled from the spec: [cereja.utils.proportional] is not part of the
    sources at hand; the specification gives the filled length of a field of
    width [W] as [floor(percent/100 * W)], hence
    [proportional(value, W) = value/100 * W]. *)
Definition proportional (value : Q) (pro_of_val : Z) : Q :=
  ((value / 100) * inject_Z pro_of_val)%Q.

Module StateBar.
Definition left_right_delimiter : string * string := ("[", "]").
Definition arrow : string := ">".
Definition default_char : string := "=".
Definition size : Z := 30.

Definition display (kw : kwargs) : string :=
  let '(l_delimiter, r_delimiter) := left_right_delimiter in
  let prop_max_size := int_of_Q (proportional (current_percent kw) size) in
  let blanks := str_mul "  " (size - prop_max_size - 1) in
  l_delimiter ++ str_mul "=" prop_max_size ++ arrow ++ blanks ++ r_delimiter.

Definition done (kw : kwargs) : string :=
  let '(l_delimiter, r_delimiter) := left_right_delimiter in
  l_delimiter ++ str_mul default_char size ++ r_delimiter.
End StateBar.

Module StatePercent.
Definition size : Z := 8.

Definition display (kw : kwargs) : string :=
  let value := format_2f (current_percent kw) in
  let zeros := str_mul "0" (6 - len value) in
  zeros ++ value ++ "%".

Definition done (kw : kwargs) : string :=
  format_2f 100 ++ "%".
End StatePercent.

(** ** Collaborators outside the sources at hand

    [cereja.utils] ([estimate], [fill], [time_format]), [cereja.unicode]
    ([Unicode]), [os.path.basename], [time.time] and the rendering of
    user-defined [State] subclasses are taken as parameters. *)

Class Environment := {
  (** [estimate(current_value, max_value, time_it)] *)
  estimate : Z -> Z -> Q -> Q;
  (** [time_format(seconds)] *)
  time_format : Q -> string;
  (** [fill(value, max_size, with_=' ')] on a string *)
  fill : string -> Z -> string;
  (** [str(Unicode(code))] for the clock glyph *)
  clock_str : string;
  (** [str(Unicode(code) + idx)]: the clock glyph shifted by [idx] *)
  clock_plus : Z -> string;
  (** [str(Unicode(code))] for the check mark of the done marker *)
  done_unicode : string;
  (** [os.path.basename] *)
  os_path_basename : string -> string;
  (** the k-th reading of [time.time()] *)
  time_time : nat -> Q;
  (** [display] and [done] of the instance [id] of a user-defined subclass *)
  custom_display : nat -> kwargs -> string;
  custom_done : nat -> kwargs -> string
}.

(** The instances the module creates, and user-made ones by identity. *)
Inductive State :=
| StateBar
| StatePercent
| StateTime
| StateLoading
| StateAwaiting
| StateCustom (id : nat).

Global Instance State_eq_dec : EqDecision State.
Proof. solve_decision. Defined.

Section States.
Context {env : Environment}.

(** [State.blanks] for a subclass of the given [size]. *)
Definition blanks (size current_size : Z) : string :=
  str_mul "  " (size - current_size - 1).

Definition StateLoading_size : Z := 3.

Definition StateLoading_display (kw : kwargs) : string :=
  let idx := kw_n_times kw mod StateLoading_size in
  (* ''.join(sequence[:idx + 1]) with sequence = (".", ".", ".") *)
  let value := str_mul "." (Z.min (idx + 1) 3) in
  let filled := fill value StateLoading_size in
  "[" ++ filled ++ "]".

Definition StateLoading_done (kw : kwargs) : string :=
  "[" ++ str_mul "." StateLoading_size ++ "]".

Definition StateAwaiting_clean (result : string) : string :=
  strip "[]" result.

Definition StateAwaiting_display (kw : kwargs) : string :=
  "Awaiting" ++ StateAwaiting_clean (StateLoading_display kw).

Definition StateAwaiting_done (kw : kwargs) : string :=
  "Awaiting" ++ StateAwaiting_clean (StateLoading_done kw) ++ " Done!".

Definition StateTime_size : Z := 11.
Definition StateTime_max_sequence : Z := 12.

Definition StateTime_display (kw : kwargs) : string :=
  let time_estimate := estimate (current_value kw) (kw_max_value kw) (time_it kw) in
  let idx := int_of_Q (proportional (inject_Z (int_of_Q (current_percent kw)))
                                    StateTime_max_sequence) in
  let t_format := time_format time_estimate in
  let value := clock_plus idx ++ " " ++ t_format in
  value ++ blanks StateTime_size (len value) ++ " estimated".

Definition StateTime_done (kw : kwargs) : string :=
  clock_str ++ " " ++ time_format (time_it kw) ++ " total".

(** Method dispatch. *)
Definition display (st : State) (kw : kwargs) : string :=
  match st with
  | StateBar => StateBar.display kw
  | StatePercent => StatePercent.display kw
  | StateTime => StateTime_display kw
  | StateLoading => StateLoading_display kw
  | StateAwaiting => StateAwaiting_display kw
  | StateCustom id => custom_display id kw
  end.

Definition done (st : State) (kw : kwargs) : string :=
  match st with
  | StateBar => StateBar.done kw
  | StatePercent => StatePercent.done kw
  | StateTime => StateTime_done kw
  | StateLoading => StateLoading_done kw
  | StateAwaiting => StateAwaiting_done kw
  | StateCustom id => custom_done id kw
  end.

(** [self.__class__.__name__.replace('__State', '') + " field"] *)
Definition State_name (st : State) : string :=
  match st with
  | StateBar => "Bar field"
  | StatePercent => "Percent field"
  | StateTime => "Time field"
  | StateLoading => "Loading field"
  | StateAwaiting => "Awaiting field"
  | StateCustom id => "Custom" ++ str_of_Z (Z.of_nat id) ++ " field"
  end.

(** [State.__repr__] *)
Definition State_repr (st : State) : string :=
  State_name st ++ " " ++
  done st {| current_value := 100; kw_max_value := 100; current_percent := 100;
             time_it := 0; kw_n_times := 100 |}.

(** [repr] of a tuple whose items have the given [repr]s. *)
Definition tuple_repr (items : list string) : string :=
  match items with
  | [] => "()"
  | [x] => "(" ++ x ++ ",)"
  | _ => "(" ++ join ", " items ++ ")"
  end.

End States.

(** ** Python values, exceptions and the console *)

(** Arguments of dynamic type: an int, a string or [None]. *)
Inductive pyobj :=
| PyInt (z : Z)
| PyStr (s : string)
| PyNone.

(** [str(o)] *)
Definition str_of_pyobj (o : pyobj) : string :=
  match o with
  | PyInt z => str_of_Z z
  | PyStr s => s
  | PyNone => "None"
  end.

(** [isinstance(o, (int, float, complex))] *)
Definition is_number (o : pyobj) : bool :=
  match o with
  | PyInt _ => true
  | _ => false
  end.

(** Exception classes: [ClsKeyboardInterrupt] stands for the classes that
    derive from [BaseException] but not from [Exception]. *)
Inductive exc_class :=
| ClsException
| ClsIndexError
| ClsKeyError
| ClsValueError
| ClsDeprecationWarning
| ClsKeyboardInterrupt.

Global Instance exc_class_eq_dec : EqDecision exc_class.
Proof. solve_decision. Defined.

Record exn := { exc_cls : exc_class; exc_str : string }.

(** [isinstance(e, Exception)] *)
Definition isinstance_Exception (e : exn) : bool :=
  match exc_cls e with
  | ClsKeyboardInterrupt => false
  | _ => true
  end.

(** [isinstance(e, DeprecationWarning)] *)
Definition isinstance_DeprecationWarning (e : exn) : bool :=
  match exc_cls e with
  | ClsDeprecationWarning => true
  | _ => false
  end.

(** [exc_tb.tb_frame.f_code.co_filename] and [exc_tb.tb_lineno] *)
Record traceback := { co_filename : string; tb_lineno : Z }.

(** Calls received by the console, and the life of the awaiting thread. *)
Inductive event :=
| EvLog (msg : string)
| EvReplaceLast (msg : string)
| EvError (msg : string)
| EvPersist
| EvDisable
| EvAwaitingStart
| EvAwaitingJoin.

Global Instance event_eq_dec : EqDecision event.
Proof. solve_decision. Defined.

(** ** The session *)

Record ProgressBase := {
  n_times : Z;
  started : bool;
  _awaiting_update : bool;
  started_time : option Q;
  _states : list State;
  max_value : Z;
  (** trace of the console the session writes to *)
  console : list event;
  (** number of readings of [time.time()] so far *)
  clock_reads : nat
}.

Definition set_n_times (v : Z) (self : ProgressBase) : ProgressBase :=
  {| n_times := v; started := started self;
     _awaiting_update := _awaiting_update self;
     started_time := started_time self; _states := _states self;
     max_value := max_value self; console := console self;
     clock_reads := clock_reads self |}.

Definition set_started (v : bool) (self : ProgressBase) : ProgressBase :=
  {| n_times := n_times self; started := v;
     _awaiting_update := _awaiting_update self;
     started_time := started_time self; _states := _states self;
     max_value := max_value self; console := console self;
     clock_reads := clock_reads self |}.

Definition set_awaiting_update (v : bool) (self : ProgressBase) : ProgressBase :=
  {| n_times := n_times self; started := started self;
     _awaiting_update := v;
     started_time := started_time self; _states := _states self;
     max_value := max_value self; console := console self;
     clock_reads := clock_reads self |}.

Definition set_started_time (v : option Q) (self : ProgressBase) : ProgressBase :=
  {| n_times := n_times self; started := started self;
     _awaiting_update := _awaiting_update self;
     started_time := v; _states := _states self;
     max_value := max_value self; console := console self;
     clock_reads := clock_reads self |}.

Definition set_states (v : list State) (self : ProgressBase) : ProgressBase :=
  {| n_times := n_times self; started := started self;
     _awaiting_update := _awaiting_update self;
     started_time := started_time self; _states := v;
     max_value := max_value self; console := console self;
     clock_reads := clock_reads self |}.

Definition set_max_value (v : Z) (self : ProgressBase) : ProgressBase :=
  {| n_times := n_times self; started := started self;
     _awaiting_update := _awaiting_update self;
     started_time := started_time self; _states := _states self;
     max_value := v; console := console self;
     clock_reads := clock_reads self |}.

(** A call on the console appends to its trace. *)
Definition emit (ev : event) (self : ProgressBase) : ProgressBase :=
  {| n_times := n_times self; started := started self;
     _awaiting_update := _awaiting_update self;
     started_time := started_time self; _states := _states self;
     max_value := max_value self; console := console self ++ [ev];
     clock_reads := clock_reads self |}.

(** What a method call leaves behind: a value or an exception, and the
    session as it is at that point. *)
Inductive outcome (A : Type) :=
| Return (a : A) (self : ProgressBase)
| Raise (e : exn) (self : ProgressBase).
Arguments Return {A} a self.
Arguments Raise {A} e self.

(** [tpl[i]] with Python's negative indices. *)
Definition py_index {A} (l : list A) (i : Z) : option A :=
  let n := Z.of_nat (length l) in
  if (0 <=? i)%Z then l !! Z.to_nat i
  else if (- n <=? i)%Z then l !! Z.to_nat (n + i)
  else None.

(** [lst[i] = v] with Python's negative indices; [None] is IndexError. *)
Definition py_assign {A} (l : list A) (i : Z) (v : A) : option (list A) :=
  let n := Z.of_nat (length l) in
  if ((0 <=? i) && (i <? n))%Z then Some (<[Z.to_nat i := v]> l)
  else if ((- n <=? i) && (i <? 0))%Z then Some (<[Z.to_nat (n + i) := v]> l)
  else None.

(** The argument of [add_state] and of the [states] parameter. *)
Inductive states_arg :=
| ArgNone
| ArgState (st : State)
| ArgStates (sts : list State).

(** The subscript of [__getitem__] and [__setitem__]. *)
Inductive subscript :=
| KInt (i : Z)
| KTuple (idxs : list Z)
| KStr (key : string).

(** What [__getitem__] returns: one state, or a tuple of states. *)
Inductive item :=
| ItemState (st : State)
| ItemTuple (sts : list State).

(** ** The text formatting behind [ConsoleBase.error]

    [str.format_map], a built-in, is a parameter: on a template it gives the
    formatted text, or the [KeyError] of a field name that is no colour, or
    another exception (a [ValueError] for a lone brace or a positional
    field). The nesting of [error] inside [template_format] is followed down
    to the depth at which the interpreter raises [RecursionError]. *)

Inductive fmt_result :=
| FmtOk (text : string)
| FmtKeyError (key_repr : string)
| FmtRaise (e : exn).

Class Formatting := {
  (** [s.format_map(self.__color_map)] *)
  format_map : string -> fmt_result;
  (** nested calls of [error] the interpreter allows *)
  recursion_limit : nat
}.

Definition CL_RED : string := String "027"%char "[31m".
Definition CL_DEFAULT : string := String "027"%char "[37m".

(** The keys of [__color_map], in the order of the dictionary. *)
Definition color_names : list string :=
  ["black"; "red"; "green"; "yellow"; "blue"; "magenta"; "cyan"; "white";
   "default"].

(** [s.replace(old, new)] for a non-empty [old]: occurrences are taken from
    the left and do not overlap; [skip] counts the characters of a matched
    occurrence still to pass. *)
Fixpoint replace_from (old new : string) (skip : nat) (s : string) : string :=
  match s with
  | EmptyString => EmptyString
  | String c rest =>
      match skip with
      | S skip' => replace_from old new skip' rest
      | O =>
          if String.prefix old s then
            new ++ replace_from old new (String.length old - 1) rest
          else String c (replace_from old new 0 rest)
      end
  end.

Definition str_replace (old new s : string) : string :=
  replace_from old new 0 s.

Definition _normalize_format (s : string) : string :=
  let s := fold_left (fun s color_name =>
                        str_replace ("end" ++ color_name) "default" s)
                     color_names s in
  str_replace "  " " " s.

(** [RecursionError], an [Exception]. *)
Definition recursion_error : exn :=
  {| exc_cls := ClsException;
     exc_str := "maximum recursion depth exceeded" |}.

Section ConsoleText.
Context {fmt : Formatting}.

(** [template_format(s)], given what the nested [self.error(...)] does: the
    text it returns, or the exception that leaves it. Only [KeyError] is
    caught. *)
Definition template_format (error : string -> option exn) (s : string)
  : exn + string :=
  let s := _normalize_format s in
  match format_map s with
  | FmtOk text => inr text
  | FmtKeyError err =>
      match error ("Color " ++ err ++ " not found.") with
      | Some e => inl e
      | None => inr s
      end
  | FmtRaise e => inl e
  end.

(** [format(s, color)] for a colour of the map, whose code is [code]. *)
Definition ConsoleBase_format (error : string -> option exn)
  (s code : string) : exn + string :=
  match template_format error s with
  | inl e => inl e
  | inr s => inr (code ++ s ++ code)
  end.

(** Whether [ConsoleBase.error(msg)] raises, and what: [format(msg, "red")],
    then [__print], whose [_parse] formats the result once more with the
    colour "default" before the line is written. *)
Fixpoint ConsoleBase_error_at (depth : nat) (msg : string) : option exn :=
  match depth with
  | O => Some recursion_error
  | S depth' =>
      let msg := "Error: " ++ msg in
      match ConsoleBase_format (ConsoleBase_error_at depth') msg CL_RED with
      | inl e => Some e
      | inr msg =>
          match ConsoleBase_format (ConsoleBase_error_at depth') msg CL_DEFAULT with
          | inl e => Some e
          | inr _ => None
          end
      end
  end.

Definition ConsoleBase_error_raises (msg : string) : option exn :=
  ConsoleBase_error_at recursion_limit msg.

End ConsoleText.

Section Session.
Context {env : Environment} {fmt : Formatting}.

Definition default_states : list State := [StateBar; StatePercent; StateTime].

Definition key_map (k : string) : option State :=
  if String.eqb k "loading" then Some StateLoading
  else if String.eqb k "time" then Some StateTime
  else if String.eqb k "percent" then Some StatePercent
  else if String.eqb k "bar" then Some StateBar
  else None.

(** [time.time()]: takes the next reading of the clock. *)
Definition read_clock (self : ProgressBase) : Q * ProgressBase :=
  (time_time (clock_reads self),
   {| n_times := n_times self; started := started self;
      _awaiting_update := _awaiting_update self;
      started_time := started_time self; _states := _states self;
      max_value := max_value self; console := console self;
      clock_reads := S (clock_reads self) |}).

(** Modelled from the spec: [cereja.concurrently.TaskList] is not part of
    the sources at hand; the specification has every state of the session
    render and the fragments joined in the order of the states, so
    [TaskList(f, xs).run()] is the list of the [f x] in order. *)
Definition TaskList_run {A B} (f : A -> B) (xs : list A) : list B := map f xs.

(** Modelled from the spec: [cereja.arraytools.is_iterable] is not part of
    the sources at hand; a single state is not iterable and is wrapped in a
    one-element tuple, a sequence of states is taken as it is. *)
Definition as_tuple (state : states_arg) : list State :=
  match state with
  | ArgNone => []
  | ArgState st => [st]
  | ArgStates sts => sts
  end.

(** Truth value of a state object: no class defines [__bool__] or
    [__len__]. *)
Definition truthy (st : State) : bool := true.

(** [any(xs)] *)
Definition any (xs : list State) : bool := existsb truthy xs.

Definition percent_ (for_value : Z) (self : ProgressBase) : Q :=
  percent for_value (max_value self).

(** [time.time() - (self.started_time or time.time())] *)
Definition elapsed (self : ProgressBase) : Q * ProgressBase :=
  let '(now, self) := read_clock self in
  match started_time self with
  | Some t0 =>
      if Qeq_bool t0 0 then
        let '(now', self) := read_clock self in ((now - now')%Q, self)
      else ((now - t0)%Q, self)
  | None =>
      let '(now', self) := read_clock self in ((now - now')%Q, self)
  end.

(** [f"Done! {self.__done_unicode}"] *)
Definition done_marker : string := "Done! " ++ done_unicode.

(** The dictionary [kwargs] that [_states_view] builds, entry by entry. *)
Definition view_kwargs (for_value : Z) (self : ProgressBase)
  : kwargs * ProgressBase :=
  let pct := percent_ for_value self in
  let '(t, self') := elapsed self in
  ({| current_value := for_value; kw_max_value := max_value self;
      current_percent := pct; time_it := t;
      kw_n_times := n_times self |}, self').

Definition _states_view (for_value : Z) (self : ProgressBase)
  : string * ProgressBase :=
  let self := set_awaiting_update false self in
  let self := set_n_times (n_times self + 1) self in
  let '(kw, self) := view_kwargs for_value self in
  let is_done := (max_value self - 1 <=? for_value)%Z in
  let get_state :=
    if is_done then (fun state => done state kw)
    else (fun state => display state kw) in
  let result := TaskList_run get_state (_states self) in
  let result :=
    if is_done then (result ++ [done_marker])%list else result in
  (join " - " result, self).

(** The keyword arguments of the update that follows in state [self]. *)
Definition kwargs_for (for_value : Z) (self : ProgressBase) : kwargs :=
  fst (view_kwargs for_value
         (set_n_times (n_times self + 1) (set_awaiting_update false self))).

Definition _filter_and_add_state (state : list State) (self : ProgressBase)
  : ProgressBase :=
  let filtered := filter (fun stt => stt ∉ _states self) state in
  if any filtered then
    let self := set_states (_states self ++ filtered)%list self in
    emit (EvLog ("Added new states! " ++ tuple_repr (map State_repr filtered)))
         self
  else self.

Definition add_state (state : states_arg) (self : ProgressBase)
  : ProgressBase :=
  match state with
  | ArgNone => self
  | _ => _filter_and_add_state (as_tuple state) self
  end.

Definition stop (self : ProgressBase) : ProgressBase :=
  if started self then
    let self := set_awaiting_update false self in
    let self := emit EvAwaitingJoin self in
    let self := set_started false self in
    emit EvDisable self
  else self.

(** The statements of [start] after its guard [if self.started]. *)
Definition start_tail (self : ProgressBase) : ProgressBase :=
  let self := set_awaiting_update true self in
  let '(now, self) := read_clock self in
  let self := set_started_time (Some now) self in
  let self := set_started true self in
  let self := emit EvPersist self in
  let self := emit EvAwaitingStart self in
  set_n_times 0 self.

(** [restart] is [stop] then [start]; [start] finds the session stopped,
    so its guard does not fire again (see [restart_unfold]). *)
Definition restart (self : ProgressBase) : ProgressBase :=
  start_tail (stop self).

Definition start (self : ProgressBase) : ProgressBase :=
  let self := if started self then restart self else self in
  start_tail self.

Definition update_max_value (new_max : pyobj) (self : ProgressBase)
  : outcome unit :=
  match new_max with
  | PyInt v =>
      if negb (v =? max_value self)%Z then
        let self := restart self in
        Return tt (set_max_value v self)
      else Return tt self
  | _ =>
      Raise {| exc_cls := ClsException;
               exc_str := "Current value " ++ str_of_pyobj new_max
                          ++ " isn't valid." |} self
  end.

Definition show_progress (for_value : Z) (new_max : pyobj)
  (self : ProgressBase) : outcome unit :=
  let updated :=
    match new_max with
    | PyNone => Return tt self
    | _ => update_max_value new_max self
    end in
  match updated with
  | Raise e self => Raise e self
  | Return _ self =>
      let '(build_progress, self) := _states_view for_value self in
      Return tt (emit (EvReplaceLast build_progress) self)
  end.

(** [ProgressBase.__init__]; [console] is the trace of the console object
    handed in. The awaiting thread is created but not started. *)
Definition ProgressBase__init__ (console : list event) (max_value : Z)
  (states : states_arg) : ProgressBase :=
  (* [max_value] is assigned after [add_state], which does not read it; until
     then the field holds the default of the parameter. *)
  let self := {| n_times := 0; started := false; _awaiting_update := true;
                 started_time := None; _states := default_states;
                 max_value := 100; console := console; clock_reads := O |} in
  let self := add_state states self in
  set_max_value max_value self.

Definition __len__ (self : ProgressBase) : Z := Z.of_nat (length (_states self)).

(** [max(idxs)] of a non-empty tuple. *)
Definition py_max (first : Z) (rest : list Z) : Z := fold_left Z.max rest first.

(** [tuple(self._states[idx] for idx in slice_ if idx < len(self))] *)
Fixpoint select (sts : list State) (idxs : list Z) : option (list State) :=
  match idxs with
  | [] => Some []
  | idx :: rest =>
      if (idx <? Z.of_nat (length sts))%Z then
        match py_index sts idx with
        | Some st => option_map (cons st) (select sts rest)
        | None => None
        end
      else select sts rest
  end.

Definition index_error (msg : string) : exn :=
  {| exc_cls := ClsIndexError; exc_str := msg |}.

Definition __getitem__ (slice_ : subscript) (self : ProgressBase) : outcome item :=
  match slice_ with
  | KTuple [] =>
      Raise {| exc_cls := ClsValueError;
               exc_str := "max() arg is an empty sequence" |} self
  | KTuple (i0 :: rest) =>
      let m := py_max i0 rest in
      if (__len__ self <? m)%Z then
        Raise (index_error (str_of_Z m ++ " isn't in progress")) self
      else
        match select (_states self) (i0 :: rest) with
        | Some sts => Return (ItemTuple sts) self
        | None => Raise (index_error "tuple index out of range") self
        end
  | KStr k =>
      match key_map k with
      | None => Raise {| exc_cls := ClsKeyError; exc_str := k |} self
      | Some key =>
          if decide (key ∈ _states self) then Return (ItemState key) self
          else Raise {| exc_cls := ClsKeyError;
                        exc_str := "Not exists " ++ State_repr key |} self
      end
  | KInt i =>
      match py_index (_states self) i with
      | Some st => Return (ItemState st) self
      | None => Raise (index_error "tuple index out of range") self
      end
  end.

Definition __setitem__ (key : subscript) (value : State) (self : ProgressBase)
  : outcome unit :=
  match key with
  | KInt i =>
      match py_assign (_states self) i value with
      | Some states_ => Return tt (set_states states_ self)
      | None => Raise (index_error "list assignment index out of range") self
      end
  | _ => Raise {| exc_cls := ClsException; exc_str := "isn't possible!" |} self
  end.

Definition __enter__ (self : ProgressBase) : ProgressBase := start self.

(** [console.error(msg)]: the console receives the call; the call returns,
    or the formatting of the message raises. *)
Definition console_error (msg : string) (self : ProgressBase) : outcome unit :=
  let self := emit (EvError msg) self in
  match ConsoleBase_error_raises msg with
  | Some e => Raise e self
  | None => Return tt self
  end.

(** [__exit__(exc_type, exc_val, exc_tb)]: [exc] is [None] when the block
    ended normally. The method returns [None], whose truth value is the
    value here, unless [console.error] raises, and then [self.stop()] is
    not reached. *)
Definition __exit__ (exc : option (exn * traceback)) (self : ProgressBase)
  : outcome bool :=
  let reported :=
    match exc with
    | Some (exc_val, exc_tb) =>
        if isinstance_Exception exc_val
           && negb (isinstance_DeprecationWarning exc_val) then
          console_error (os_path_basename (co_filename exc_tb) ++ ":"
                         ++ str_of_Z (tb_lineno exc_tb) ++ ": "
                         ++ exc_str exc_val) self
        else Return tt self
    | None => Return tt self
    end in
  match reported with
  | Return _ self => Return false (stop self)
  | Raise e self => Raise e self
  end.

(** [Progress.__init__(name, max_value, states, style=...)]. The console
    is created for the session; its title is not part of the trace. *)
Definition Progress__init__ (max_value : Z) (states : states_arg)
  (style : option string) : outcome unit :=
  let self := ProgressBase__init__ [] 100 states in
  let self := if (max_value =? 0)%Z then self else set_max_value max_value self in
  match style with
  | Some sty =>
      if String.eqb sty "loading" then __setitem__ (KInt 0) StateLoading self
      else Return tt self
  | None => Return tt self
  end.

End Session.

(** ** The sequence adapter *)

(** Calls the adapter itself makes on the session, in order. This log is a
    ghost of the model: it records each call statement of
    [ProgressIterator] as it executes. *)
Inductive call :=
| CUpdateMax (n : Z)
| CStart
| CShow (n : Z)
| CStop.

Global Instance call_eq_dec : EqDecision call.
Proof. solve_decision. Defined.

(** The session is shared with the caller: it is threaded next to the
    iterator, not stored in it. *)
Record ProgressIterator (A : Type) := {
  sequence : list A;
  driven : list call
}.
Arguments sequence {A} _.
Arguments driven {A} _.

(** Where the generator made by [__next__] stands. *)
Inductive frame :=
| FrameCreated
| FrameYielded (n : nat)
| FrameFinished.

Record generator (A : Type) := {
  gen_sequence : list A;
  gen_frame : frame;
  gen_calls : list call
}.
Arguments gen_sequence {A} _.
Arguments gen_frame {A} _.
Arguments gen_calls {A} _.

(** What resuming a generator gives its consumer. *)
Inductive resumed (A : Type) :=
| Yield (value : A)
| StopIteration
| Propagate (e : exn).
Arguments Yield {A} value.
Arguments StopIteration {A}.
Arguments Propagate {A} e.

Section Iterator.
Context {env : Environment} {A : Type}.

Definition ProgressIterator__init__ (sequence : list A)
  (progress : ProgressBase) : outcome (ProgressIterator A) :=
  let n := Z.of_nat (length sequence) in
  match update_max_value (PyInt n) progress with
  | Return _ progress =>
      Return {| sequence := sequence; driven := [CUpdateMax n] |} progress
  | Raise e progress => Raise e progress
  end.

Definition at_frame (f : frame) (cs : list call) (g : generator A)
  : generator A :=
  {| gen_sequence := gen_sequence g; gen_frame := f;
     gen_calls := (gen_calls g ++ cs)%list |}.

(** The [for n, value in enumerate(self.sequence)] loop from its [n]-th
    round up to the next [yield], or past the loop to [self.progress.stop()]. *)
Definition loop_from (n : nat) (g : generator A) (progress : ProgressBase)
  : resumed A * generator A * ProgressBase :=
  match gen_sequence g !! n with
  | Some value =>
      if started progress then
        match show_progress (Z.of_nat n) PyNone progress with
        | Return _ progress =>
            (Yield value,
             at_frame (FrameYielded n) [CShow (Z.of_nat n)] g, progress)
        | Raise e progress =>
            (Propagate e,
             at_frame FrameFinished [CShow (Z.of_nat n)] g, progress)
        end
      else (Yield value, at_frame (FrameYielded n) [] g, progress)
  | None =>
      (StopIteration, at_frame FrameFinished [CStop] g, stop progress)
  end.

(** [next(gen)]: runs the body of [__next__] up to its next [yield]. *)
Definition gen_next (g : generator A) (progress : ProgressBase)
  : resumed A * generator A * ProgressBase :=
  match gen_frame g with
  | FrameCreated =>
      loop_from 0 (at_frame FrameCreated [CStart] g) (start progress)
  | FrameYielded n => loop_from (S n) g progress
  | FrameFinished => (StopIteration, g, progress)
  end.

(** [gen.close()], also what dropping a suspended generator does:
    [GeneratorExit] is raised at the [yield]; the body has no [try], so
    nothing of it runs any more. *)
Definition gen_close (g : generator A) : generator A :=
  at_frame FrameFinished [] g.

(** [__iter__] returns [next(self)], the generator object of [__next__];
    no statement of the body has run yet. *)
Definition __iter__ (it : ProgressIterator A) : generator A :=
  {| gen_sequence := sequence it; gen_frame := FrameCreated;
     gen_calls := driven it |}.

(** A consumer loop [for x in gen: body(x)] that leaves with [break] once it
    has taken [budget] elements, unless the generator ends first. The body
    holds the same session object as the generator and may act on it. The
    result has the elements taken so far. *)
Fixpoint consume (body : A -> ProgressBase -> ProgressBase) (budget : nat)
  (g : generator A) (progress : ProgressBase)
  : list A * generator A * ProgressBase :=
  match budget with
  | O => ([], gen_close g, progress)
  | S budget' =>
      match gen_next g progress with
      | (Yield value, g, progress) =>
          let progress := body value progress in
          let '(taken, g, progress) := consume body budget' g progress in
          (value :: taken, g, progress)
      | (_, g, progress) => ([], g, progress)
      end
  end.

(** Wrapping [sequence] in the session and looping over the result. *)
Definition wrap_and_consume (body : A -> ProgressBase -> ProgressBase)
  (budget : nat) (sequence : list A) (progress : ProgressBase)
  : list A * generator A * ProgressBase :=
  match ProgressIterator__init__ sequence progress with
  | Return it progress => consume body budget (__iter__ it) progress
  | Raise _ progress =>
      ([], {| gen_sequence := sequence; gen_frame := FrameFinished;
              gen_calls := [] |}, progress)
  end.

End Iterator.

(** ** The scoped session *)

(** How the body of a [with] block ends. *)
Inductive block_end (A : Type) :=
| BlockReturn (a : A) (self : ProgressBase)
| BlockRaise (e : exn) (tb : traceback) (self : ProgressBase).
Arguments BlockReturn {A} a self.
Arguments BlockRaise {A} e tb self.

Section Scoped.
Context {env : Environment} {fmt : Formatting} {A : Type}.

(** [with progress as p: body(p)]: what leaves the block is the value of the
    body, or the exception of the body unless [__exit__] returns a true
    value, or the exception [__exit__] itself raises. *)
Definition with_ (body : ProgressBase -> block_end A) (self : ProgressBase)
  : outcome (option A) :=
  let self := __enter__ self in
  match body self with
  | BlockReturn a self =>
      match __exit__ None self with
      | Return _ self => Return (Some a) self
      | Raise e self => Raise e self
      end
  | BlockRaise e tb self =>
      match __exit__ (Some (e, tb)) self with
      | Return suppress self =>
          if suppress then Return None self else Raise e self
      | Raise e' self => Raise e' self
      end
  end.

End Scoped.

(** ** A concrete environment for evaluation

    The theorems hold for every environment; this one only serves to run
    the definitions on concrete inputs. *)

Fixpoint basename_from (acc : string) (path : string) : string :=
  match path with
  | EmptyString => acc
  | String c rest =>
      if Ascii.eqb c "/"%char then basename_from EmptyString rest
      else basename_from (acc ++ String c EmptyString) rest
  end.

Definition sample_env : Environment := {|
  estimate := fun cv mv t =>
    if (cv =? 0)%Z then 0%Q else (t * inject_Z mv / inject_Z cv)%Q;
  time_format := fun t => str_of_Z (Qfloor t) ++ "s";
  fill := fun value max_size => value ++ str_mul " " (max_size - len value);
  clock_str := "(clock)";
  clock_plus := fun idx => "(clock+" ++ str_of_Z idx ++ ")";
  done_unicode := "(check)";
  os_path_basename := basename_from EmptyString;
  time_time := fun k => inject_Z (1000 + Z.of_nat k);
  custom_display := fun id _ => "custom" ++ str_of_Z (Z.of_nat id);
  custom_done := fun id _ => "custom" ++ str_of_Z (Z.of_nat id) ++ " done"
|}.

(** A session as [ProgressBase(console, max_value)] makes it. *)
Definition fresh (max_value : Z) : ProgressBase :=
  @ProgressBase__init__ sample_env [] max_value ArgNone.

(** A reading of [str.format_map] with the colour map, for evaluation: text
    without braces is returned as it is, doubled braces give one brace, a
    field that is the name of a colour gives its code, another plain name is
    a [KeyError], a lone brace and a positional field are [ValueError]s with
    the messages of the interpreter. Fields with a conversion, a format
    specification, an attribute or an index are not read. *)

Definition color_code (name : string) : option string :=
  if String.eqb name "black" then Some (String "027"%char "[30m")
  else if String.eqb name "red" then Some (String "027"%char "[31m")
  else if String.eqb name "green" then Some (String "027"%char "[32m")
  else if String.eqb name "yellow" then Some (String "027"%char "[33m")
  else if String.eqb name "blue" then Some (String "027"%char "[34m")
  else if String.eqb name "magenta" then Some (String "027"%char "[35m")
  else if String.eqb name "cyan" then Some (String "027"%char "[36m")
  else if String.eqb name "white" then Some (String "027"%char "[37m")
  else if String.eqb name "default" then Some (String "027"%char "[37m")
  else None.

Definition value_error (msg : string) : exn :=
  {| exc_cls := ClsValueError; exc_str := msg |}.

Definition is_digit (c : ascii) : bool :=
  (Nat.leb 48 (nat_of_ascii c) && Nat.leb (nat_of_ascii c) 57)%bool.

Definition plain_name (name : string) : bool :=
  forallb (fun c => negb (mem_ascii c ".[]!:{")) (list_ascii_of_string name).

(** What the field [{name}] of a template gives. *)
Definition field_value (name : string) : fmt_result :=
  if forallb is_digit (list_ascii_of_string name) then
    FmtRaise (value_error "Format string contains positional fields")
  else if plain_name name then
    match color_code name with
    | Some code => FmtOk code
    | None => FmtKeyError ("'" ++ name ++ "'")
    end
  else FmtRaise (value_error "field not read").

(** The scan of a template: [field] holds the name of the field being read,
    [out] the text formatted so far. *)
Fixpoint scan_template (s : string) (field : option string) (out : string)
  : fmt_result :=
  match s with
  | EmptyString =>
      match field with
      | None => FmtOk out
      | Some EmptyString =>
          FmtRaise (value_error "Single '{' encountered in format string")
      | Some _ => FmtRaise (value_error "expected '}' before end of string")
      end
  | String c rest =>
      match field with
      | None =>
          if Ascii.eqb c "{"%char then
            match rest with
            | String c' rest' =>
                if Ascii.eqb c' "{"%char then scan_template rest' None (out ++ "{")
                else scan_template rest (Some EmptyString) out
            | EmptyString => scan_template rest (Some EmptyString) out
            end
          else if Ascii.eqb c "}"%char then
            match rest with
            | String c' rest' =>
                if Ascii.eqb c' "}"%char then scan_template rest' None (out ++ "}")
                else FmtRaise (value_error "Single '}' encountered in format string")
            | EmptyString =>
                FmtRaise (value_error "Single '}' encountered in format string")
            end
          else scan_template rest None (out ++ String c EmptyString)
      | Some name =>
          if Ascii.eqb c "}"%char then
            match field_value name with
            | FmtOk code => scan_template rest None (out ++ code)
            | failure => failure
            end
          else scan_template rest (Some (name ++ String c EmptyString)) out
      end
  end.

Definition sample_fmt : Formatting := {|
  format_map := fun s => scan_template s None EmptyString;
  recursion_limit := 250
|}.

(** An exception whose message is a lone brace. *)
Definition lone_brace : exn := {| exc_cls := ClsValueError; exc_str := "{" |}.

(** ** The older copy [lab/console.py]

    The copy differs from [cereja/display.py] in a few places; the one that
    matters below is [__exit__], which has no exemption. *)

Module LabConsole.
Section Lab.
Context {env : Environment} {fmt : Formatting}.

Definition __exit__ (exc : option (exn * traceback)) (self : ProgressBase)
  : outcome bool :=
  let reported :=
    match exc with
    | Some (exc_val, exc_tb) =>
        if isinstance_Exception exc_val then
          console_error (os_path_basename (co_filename exc_tb) ++ ":"
                         ++ str_of_Z (tb_lineno exc_tb) ++ ": "
                         ++ exc_str exc_val) self
        else Return tt self
    | None => Return tt self
    end in
  match reported with
  | Return _ self => Return false (stop self)
  | Raise e self => Raise e self
  end.
End Lab.
End LabConsole.

(** Number of occurrences of a state in a sequence of states. *)
Definition occurrences (st : State) (sts : list State) : nat :=
  count_occ State_eq_dec sts st.

(** The calls [show_progress(from)], ..., [show_progress(from + count - 1)]. *)
Definition shows (from count : nat) : list call :=
  map (fun i => CShow (Z.of_nat i)) (seq from count).

(** An error, a deprecation warning and a place in a script. *)
Definition boom : exn := {| exc_cls := ClsValueError; exc_str := "boom" |}.
Definition old_api : exn :=
  {| exc_cls := ClsDeprecationWarning; exc_str := "Will be deprecated" |}.
Definition at_job_12 : traceback :=
  {| co_filename := "/home/user/job.py"; tb_lineno := 12 |}.

(** The events of the life cycle: everything but the progress lines. *)
Definition life_cycle_events (evs : list event) : list event :=
  List.filter (fun ev => match ev with EvReplaceLast _ => false | _ => true end)
              evs.

(** A loop body that leaves the session alone. *)
Definition idle_body {A} (x : A) (progress : ProgressBase) : ProgressBase :=
  progress.

(** Keyword arguments that carry the percentage [p]. *)
Definition kw_of_percent (p : Q) : kwargs :=
  {| current_value := 0; kw_max_value := 100; current_percent := p;
     time_it := 0; kw_n_times := 1 |}.

(** The bar as the specification words it: single blanks after the arrow. *)
Definition bar_with_single_blanks (p : Q) : string :=
  let filled := Qfloor (p / 100 * 30) in
  "[" ++ str_mul "=" filled ++ ">" ++ str_mul " " (30 - filled - 1) ++ "]".

(** ** Further parts of the module *)

Section FurtherParts.
Context {env : Environment}.

(** A run of updates [show_progress(v)] for the values [values], in order. *)
Fixpoint updates (values : list Z) (self : ProgressBase) : ProgressBase :=
  match values with
  | [] => self
  | v :: rest =>
      match show_progress v PyNone self with
      | Return _ self => updates rest self
      | Raise _ self => self
      end
  end.

(** The first statement of [ProgressBase.__repr__]:
    [progress_example_view = self._states_view(self.max_value)]. *)
Definition __repr___example_view (self : ProgressBase)
  : string * ProgressBase :=
  _states_view (max_value self) self.

(** The position a Python index [i] denotes in a tuple of length [n]. *)
Definition position (n : nat) (i : Z) : nat :=
  if (0 <=? i)%Z then Z.to_nat i else Z.to_nat (Z.of_nat n + i).

(** The session as a [with] block leaves it. *)
Definition block_session {A} (r : outcome A) : ProgressBase :=
  match r with
  | Return _ self => self
  | Raise _ self => self
  end.

(** A loop body that stops the session. *)
Definition stopping_body {A} (x : A) (progress : ProgressBase) : ProgressBase :=
  stop progress.

End FurtherParts.

(** [ConsoleBase.title] after the calls [calls] on a console created with
    the title [title]: of the methods in the trace only [disable] assigns
    the title, [self.title = "Cereja"]. *)
Definition ConsoleBase_title (title : string) (calls : list event) : string :=
  fold_left (fun t ev => match ev with EvDisable => "Cereja" | _ => t end)
            calls title.

(** The awaiting threads started and not joined in a trace. *)
Definition awaiting_started (calls : list event) : nat :=
  count_occ event_eq_dec calls EvAwaitingStart.
Definition awaiting_joined (calls : list event) : nat :=
  count_occ event_eq_dec calls EvAwaitingJoin.

(* ===================================================================== *)
(** * Properties *)

(** ** Strings and numbers *)

Lemma length_append (a b : string) :
  String.length (a ++ b) = (String.length a + String.length b)%nat.
Proof. induction a as [|c a IH]; simpl; [reflexivity | now rewrite IH]. Qed.

Lemma append_assoc (a b c : string) : (a ++ b) ++ c = a ++ (b ++ c).
Proof. induction a as [|x a IH]; simpl; [reflexivity | now rewrite IH]. Qed.

Lemma length_repeat_nat (c : string) (n : nat) :
  String.length (repeat_nat c n) = (n * String.length c)%nat.
Proof.
  induction n as [|n IH]; simpl; [reflexivity|].
  rewrite length_append, IH. lia.
Qed.

Lemma length_str_mul_char (c : ascii) (n : Z) :
  String.length (str_mul (String c EmptyString) n) = Z.to_nat n.
Proof. unfold str_mul. rewrite length_repeat_nat. simpl. lia. Qed.

(** A property checked on every number below [n] holds below [n]. *)
Lemma check_below (P : Z -> bool) (n : nat) :
  forallb (fun k => P (Z.of_nat k)) (seq 0 n) = true ->
  forall z, (0 <= z < Z.of_nat n)%Z -> P z = true.
Proof.
  intros Hall z Hz.
  rewrite forallb_forall in Hall.
  specialize (Hall (Z.to_nat z)).
  rewrite Z2Nat.id in Hall by lia.
  apply Hall, in_seq. lia.
Qed.

Lemma str_of_Z_length_le_100 (z : Z) :
  (0 <= z <= 100)%Z ->
  (1 <= String.length (str_of_Z z) <= 3)%nat.
Proof.
  intros Hz.
  pose (P := fun z => let n := String.length (str_of_Z z) in
                      (Nat.leb 1 n && Nat.leb n 3)%bool).
  assert (HP : P z = true).
  { apply (check_below P 101); [vm_compute; reflexivity | lia]. }
  unfold P in HP. apply andb_true_iff in HP as [H1 H2].
  apply Nat.leb_le in H1, H2. lia.
Qed.

Lemma two_digits_length (m : Z) :
  (0 <= m < 100)%Z -> String.length (two_digits m) = 2%nat.
Proof.
  intros Hm.
  pose (P := fun m => Nat.eqb (String.length (two_digits m)) 2).
  assert (HP : P m = true).
  { apply (check_below P 100); [vm_compute; reflexivity | lia]. }
  now apply Nat.eqb_eq in HP.
Qed.

Lemma Qnum_nonneg (x : Q) : (0 <= x)%Q -> (0 <= Qnum x)%Z.
Proof. unfold Qle. simpl. lia. Qed.

(** For a non-negative float [int] is the floor. *)
Lemma int_of_Q_floor (x : Q) : (0 <= x)%Q -> int_of_Q x = Qfloor x.
Proof.
  intros Hx. unfold int_of_Q. destruct x as [n d]. simpl.
  apply Z.quot_div_nonneg; [apply (Qnum_nonneg (n # d) Hx) | lia].
Qed.

Lemma round_half_even_bounds (a : Q) (hi : Z) :
  (0 <= a)%Q -> (a < inject_Z hi)%Q ->
  (0 <= round_half_even a <= hi)%Z.
Proof.
  intros H0 Hhi.
  assert (Hfl0 : (0 <= Qfloor a)%Z).
  { change 0%Z with (Qfloor 0). now apply Qfloor_resp_le. }
  assert (Hflhi : (Qfloor a < hi)%Z).
  { rewrite Zlt_Qlt. eapply Qle_lt_trans; [apply Qfloor_le | exact Hhi]. }
  unfold round_half_even.
  destruct (_ ?= _)%Q; [destruct (Z.even _) | |]; lia.
Qed.

Lemma format_2f_nonneg (x : Q) :
  (0 <= x)%Q ->
  format_2f x =
    let cents := round_half_even (Qabs x * 100)%Q in
    str_of_Z (cents / 100) ++ "." ++ two_digits (cents mod 100).
Proof.
  intros Hx. unfold format_2f.
  destruct (Qlt_le_dec x 0) as [Hneg|_]; [|reflexivity].
  exfalso. exact (Qlt_not_le _ _ Hneg Hx).
Qed.

Lemma cents_bounds (p : Q) :
  (0 <= p)%Q -> (p < 100)%Q ->
  (0 <= round_half_even (Qabs p * 100)%Q <= 10000)%Z.
Proof.
  intros H0 H100.
  apply round_half_even_bounds.
  - apply Qmult_le_0_compat; [apply Qabs_nonneg | discriminate].
  - rewrite (Qabs_pos p H0).
    change (inject_Z 10000) with (100 * 100)%Q.
    apply Qmult_lt_compat_r; [reflexivity | exact H100].
Qed.

(** ** The bar and the percentage *)

(** C5 (as amended): for a percentage [p] between 0 and 100 the bar is
    ['['], then ['='] repeated [floor(p/100 * 30)] times, then the arrow
    ['>'], then the two-blank string repeated [30 - filled - 1] times
    (nothing when that count is negative), then [']']; when done it is ['['],
    ['='] repeated 30 times, [']'], without the arrow. *)
Theorem StateBar_display_and_done (kw : kwargs) (p : Q) :
  current_percent kw = p -> (0 <= p)%Q -> (p <= 100)%Q ->
  let filled := Qfloor (p / 100 * 30) in
  StateBar.display kw =
    "[" ++ str_mul "=" filled ++ ">" ++ str_mul "  " (30 - filled - 1) ++ "]"
  /\ (0 <= filled <= 30)%Z
  /\ StateBar.done kw = "[" ++ str_mul "=" 30 ++ "]".
Proof.
  intros Hp H0 H100 filled.
  assert (Hprop : (0 <= proportional p StateBar.size)%Q).
  { unfold proportional. apply Qmult_le_0_compat; [|discriminate].
    apply Qle_shift_div_l; [reflexivity|]. now rewrite Qmult_0_l. }
  split; [|split].
  - unfold StateBar.display. simpl. rewrite Hp.
    rewrite (int_of_Q_floor _ Hprop). reflexivity.
  - subst filled. split.
    + change 0%Z with (Qfloor 0). apply Qfloor_resp_le. exact Hprop.
    + change 30%Z with (Qfloor (inject_Z 30)). apply Qfloor_resp_le.
      apply Qle_trans with (100 / 100 * 30)%Q; [|discriminate].
      apply Qmult_le_compat_r; [|discriminate].
      apply Qmult_le_compat_r; [exact H100 | discriminate].
  - reflexivity.
Qed.

Lemma StateBar_display_and_done_witness :
  (0 <= 50)%Q /\ (50 <= 100)%Q
  /\ StateBar.display (kw_of_percent 50) =
       "[" ++ str_mul "=" 15 ++ ">" ++ str_mul "  " 14 ++ "]"
  /\ StateBar.done (kw_of_percent 50) = "[" ++ str_mul "=" 30 ++ "]".
Proof.
  assert (H0 : (0 <= 50)%Q) by discriminate.
  assert (H100 : (50 <= 100)%Q) by discriminate.
  destruct (StateBar_display_and_done (kw_of_percent 50) 50 eq_refl H0 H100)
    as (Hd & _ & Hdone).
  split; [exact H0|]. split; [exact H100|]. split; [exact Hd | exact Hdone].
Defined.

(** C5 (as stated) fails at [p = 0]: the bar has 58 blanks after the arrow,
    not 29. *)
Lemma StateBar_single_blanks_counterexample :
  StateBar.display (kw_of_percent 0) = "[>" ++ str_mul " " 58 ++ "]"
  /\ StateBar.display (kw_of_percent 0) <> bar_with_single_blanks 0.
Proof.
  split; [reflexivity|].
  intros H. apply (f_equal String.length) in H. vm_compute in H. discriminate.
Qed.

(** C6 (as amended): for a percentage [p] with [0 <= p < 100] the field is
    [p] fixed to two decimals and padded with zeros on the left to six
    characters before the ['%'] -- three integer digits, the point and two
    decimals, so 0 renders as ['000.00%'] -- which gives the constant width of
    seven characters; when done the field is ['100.00%'] whatever the
    arguments. *)
Theorem StatePercent_display_and_done (kw kw' : kwargs) (p : Q) :
  current_percent kw = p -> (0 <= p)%Q -> (p < 100)%Q ->
  (exists int_digits frac_digits,
      StatePercent.display kw = int_digits ++ "." ++ frac_digits ++ "%"
      /\ String.length int_digits = 3%nat
      /\ String.length frac_digits = 2%nat
      /\ int_digits ++ "." ++ frac_digits =
           str_mul "0" (6 - len (format_2f p)) ++ format_2f p)
  /\ String.length (StatePercent.display kw) = 7%nat
  /\ StatePercent.done kw' = "100.00%".
Proof.
  intros Hp H0 H100.
  pose proof (cents_bounds p H0 H100) as Hc.
  set (cents := round_half_even (Qabs p * 100)%Q) in *.
  assert (Hint : (1 <= String.length (str_of_Z (cents / 100)) <= 3)%nat).
  { apply str_of_Z_length_le_100.
    split; [apply Z.div_pos; lia | apply Z.div_le_upper_bound; lia]. }
  assert (Hfrac : String.length (two_digits (cents mod 100)) = 2%nat).
  { apply two_digits_length. apply Z.mod_pos_bound. lia. }
  assert (Hfmt : format_2f p =
                 str_of_Z (cents / 100) ++ "." ++ two_digits (cents mod 100)).
  { now rewrite format_2f_nonneg. }
  assert (Hlen : String.length (format_2f p) =
                 (String.length (str_of_Z (cents / 100)) + 3)%nat).
  { rewrite Hfmt, !length_append, Hfrac. simpl. lia. }
  assert (Hshape :
    StatePercent.display kw =
      (str_mul "0" (6 - len (format_2f p)) ++ str_of_Z (cents / 100))
      ++ "." ++ two_digits (cents mod 100) ++ "%").
  { unfold StatePercent.display. rewrite Hp. cbv zeta.
    rewrite Hfmt at 2. now rewrite !append_assoc. }
  split; [|split].
  - exists (str_mul "0" (6 - len (format_2f p)) ++ str_of_Z (cents / 100)),
           (two_digits (cents mod 100)).
    split; [exact Hshape|]. split; [|split; [exact Hfrac|]].
    + rewrite length_append, length_str_mul_char. unfold len. lia.
    + now rewrite append_assoc, <- Hfmt.
  - rewrite Hshape, !length_append, length_str_mul_char, Hfrac.
    unfold len. simpl. lia.
  - reflexivity.
Qed.

Lemma StatePercent_display_and_done_witness :
  (0 <= 1 # 3)%Q /\ (1 # 3 < 100)%Q
  /\ String.length (StatePercent.display (kw_of_percent (1 # 3))) = 7%nat
  /\ StatePercent.done (kw_of_percent 0) = "100.00%".
Proof.
  assert (H0 : (0 <= 1 # 3)%Q) by discriminate.
  assert (H100 : (1 # 3 < 100)%Q) by reflexivity.
  destruct (StatePercent_display_and_done
              (kw_of_percent (1 # 3)) (kw_of_percent 0) (1 # 3) eq_refl H0 H100)
    as (_ & Hlen & Hdone).
  split; [exact H0|]. split; [exact H100|]. split; [exact Hlen | exact Hdone].
Defined.

(** C6 (as stated) fails at [p = 0]: the field is ['000.00%'], not
    ['000000.00%']. *)
Lemma StatePercent_padding_counterexample :
  StatePercent.display (kw_of_percent 0) = "000.00%"
  /\ StatePercent.display (kw_of_percent 0) <> "000000.00%".
Proof. split; [reflexivity | discriminate]. Qed.

(** ** The life cycle *)

Section LifeCycle.
Context {env : Environment}.

Lemma started_stop (self : ProgressBase) : started (stop self) = false.
Proof. unfold stop. destruct (started self) eqn:E; [reflexivity | exact E]. Qed.

(** [restart] is literally [stop] followed by [start]. *)
Lemma restart_unfold (self : ProgressBase) : restart self = start (stop self).
Proof. unfold start. now rewrite started_stop. Qed.

Lemma read_clock_fields (self : ProgressBase) :
  let self' := snd (read_clock self) in
  n_times self' = n_times self /\ started self' = started self
  /\ _states self' = _states self /\ max_value self' = max_value self
  /\ console self' = console self
  /\ _awaiting_update self' = _awaiting_update self
  /\ started_time self' = started_time self.
Proof. cbn. tauto. Qed.

Lemma start_tail_fields (self : ProgressBase) :
  let self' := start_tail self in
  n_times self' = 0%Z /\ started self' = true
  /\ _awaiting_update self' = true
  /\ _states self' = _states self /\ max_value self' = max_value self.
Proof. cbn. tauto. Qed.

Lemma stop_fields (self : ProgressBase) :
  _states (stop self) = _states self /\ max_value (stop self) = max_value self.
Proof. unfold stop. destruct (started self); cbn; tauto. Qed.

Lemma restart_fields (self : ProgressBase) :
  n_times (restart self) = 0%Z /\ started (restart self) = true
  /\ _states (restart self) = _states self
  /\ max_value (restart self) = max_value self.
Proof.
  unfold restart.
  destruct (start_tail_fields (stop self)) as (Hn & Hs & _ & Hst & Hm).
  destruct (stop_fields self) as (Hst' & Hm').
  repeat split; congruence.
Qed.

Lemma started_start (self : ProgressBase) : started (start self) = true.
Proof. reflexivity. Qed.

Lemma elapsed_fields (self : ProgressBase) :
  let self' := snd (elapsed self) in
  n_times self' = n_times self /\ started self' = started self
  /\ _states self' = _states self /\ max_value self' = max_value self
  /\ console self' = console self.
Proof.
  unfold elapsed. cbn.
  destruct (started_time self) as [t0|]; [destruct (Qeq_bool t0 0)|]; cbn; tauto.
Qed.

Lemma view_kwargs_fields (v : Z) (self : ProgressBase) :
  let self' := snd (view_kwargs v self) in
  n_times self' = n_times self /\ started self' = started self
  /\ _states self' = _states self /\ max_value self' = max_value self
  /\ console self' = console self.
Proof.
  unfold view_kwargs. pose proof (elapsed_fields self) as H.
  destruct (elapsed self) as [t self']. exact H.
Qed.

(** The line [_states_view] builds, by the threshold test. *)
Lemma _states_view_line (v : Z) (self : ProgressBase) :
  fst (_states_view v self) =
    let kw := kwargs_for v self in
    if (max_value self - 1 <=? v)%Z then
      join " - " (map (fun st => done st kw) (_states self) ++ [done_marker])
    else
      join " - " (map (fun st => display st kw) (_states self)).
Proof.
  unfold _states_view, kwargs_for.
  set (s1 := set_n_times _ _).
  pose proof (view_kwargs_fields v s1) as (_ & _ & Hst & Hm & _).
  destruct (view_kwargs v s1) as [kw s2]. cbn [fst snd] in *.
  rewrite Hm, Hst. change (max_value s1) with (max_value self).
  change (_states s1) with (_states self).
  now destruct (max_value self - 1 <=? v)%Z.
Qed.

Lemma _states_view_fields (v : Z) (self : ProgressBase) :
  let self' := snd (_states_view v self) in
  n_times self' = (n_times self + 1)%Z /\ started self' = started self
  /\ _states self' = _states self /\ max_value self' = max_value self
  /\ console self' = console self.
Proof.
  unfold _states_view.
  set (s1 := set_n_times _ _).
  pose proof (view_kwargs_fields v s1) as H.
  destruct (view_kwargs v s1) as [kw s2]. exact H.
Qed.

Lemma show_progress_None (v : Z) (self : ProgressBase) :
  show_progress v PyNone self =
    Return tt (emit (EvReplaceLast (fst (_states_view v self)))
                    (snd (_states_view v self))).
Proof. unfold show_progress. now destruct (_states_view v self). Qed.

Lemma update_max_value_same (self : ProgressBase) :
  update_max_value (PyInt (max_value self)) self = Return tt self.
Proof. unfold update_max_value. now rewrite Z.eqb_refl. Qed.

Lemma join_snoc (sep : string) (parts : list string) (last : string) :
  parts <> [] ->
  join sep (parts ++ [last]) = join sep parts ++ sep ++ last.
Proof.
  unfold join. induction parts as [|x [|y rest] IH]; intros Hne.
  - contradiction.
  - reflexivity.
  - change (String.concat sep ((x :: y :: rest) ++ [last])%list)
      with (x ++ sep ++ String.concat sep ((y :: rest) ++ [last])%list).
    rewrite IH by discriminate.
    change (String.concat sep (x :: y :: rest))
      with (x ++ sep ++ String.concat sep (y :: rest)).
    now rewrite !append_assoc.
Qed.

End LifeCycle.

(** ** Progress updates and the maximum value *)

Section Updates.
Context {env : Environment}.

(** C1: in a session with positive maximum [M], an update with
    [current >= M - 1] renders the [done] fragment of every state and
    appends the marker, the text "Done! " followed by the check mark of the
    console, an update with [current <= M - 2] renders
    the [display] fragments only, without the marker; the fragments are
    joined with [" - "], and the line goes to the console. Passing [M]
    again as the maximum changes nothing. *)
Theorem show_progress_completion_threshold
  (self : ProgressBase) (M current : Z) :
  max_value self = M -> (0 < M)%Z ->
  let kw := kwargs_for current self in
  let done_fragments := map (fun st => done st kw) (_states self) in
  let display_fragments := map (fun st => display st kw) (_states self) in
  let line := fst (_states_view current self) in
  ((M - 1 <= current)%Z ->
     line = join " - " (done_fragments ++ ["Done! " ++ done_unicode])
     /\ (_states self <> [] ->
         line = join " - " done_fragments ++ " - " ++ "Done! " ++ done_unicode))
  /\ ((current <= M - 2)%Z -> line = join " - " display_fragments)
  /\ (exists self',
        show_progress current PyNone self = Return tt self'
        /\ console self' = (console self ++ [EvReplaceLast line])%list)
  /\ show_progress current (PyInt M) self = show_progress current PyNone self.
Proof.
  intros HM Hpos kw done_fragments display_fragments line.
  assert (Hline := _states_view_line current self).
  fold line in Hline. cbv zeta in Hline. fold kw in Hline.
  fold done_fragments display_fragments in Hline. rewrite HM in Hline.
  unfold done_marker in Hline.
  split; [|split; [|split]].
  - intros Hge. apply Z.leb_le in Hge. rewrite Hge in Hline.
    split; [exact Hline|].
    intros Hne. rewrite Hline. apply join_snoc.
    subst done_fragments. destruct (_states self); [contradiction | discriminate].
  - intros Hle. assert (Hlt : (M - 1 <=? current)%Z = false) by (apply Z.leb_gt; lia).
    now rewrite Hlt in Hline.
  - eexists. split; [apply show_progress_None|].
    cbn [console emit]. f_equal.
    now destruct (_states_view_fields current self) as (_ & _ & _ & _ & ->).
  - unfold show_progress. rewrite <- HM. now rewrite update_max_value_same.
Qed.

(** C3 (as amended): an argument that is not a number makes
    [update_max_value] raise and leaves the session as it was; a number is
    never refused for being zero or negative. *)
Theorem update_max_value_rejects_non_numbers
  (self : ProgressBase) (new_max : pyobj) :
  (is_number new_max = false ->
     update_max_value new_max self =
       Raise {| exc_cls := ClsException;
                exc_str := "Current value " ++ str_of_pyobj new_max
                           ++ " isn't valid." |} self)
  /\ (forall v, new_max = PyInt v ->
        exists self', update_max_value new_max self = Return tt self'
                      /\ max_value self' = v).
Proof.
  split.
  - destruct new_max; [discriminate | reflexivity | reflexivity].
  - intros v ->. unfold update_max_value.
    destruct (v =? max_value self)%Z eqn:E; cbn [negb].
    + apply Z.eqb_eq in E. now exists self.
    + now eexists.
Qed.

(** C4: [update_max_value] with the current maximum changes nothing; with
    another value it restarts the session, which puts the call count back
    to 0 while the old maximum is still in place, and then stores the new
    maximum. *)
Theorem update_max_value_restarts_on_change (self : ProgressBase) (v : Z) :
  (v = max_value self -> update_max_value (PyInt v) self = Return tt self)
  /\ (v <> max_value self ->
      update_max_value (PyInt v) self =
        Return tt (set_max_value v (restart self))
      /\ restart self = start (stop self)
      /\ n_times (restart self) = 0%Z
      /\ max_value (restart self) = max_value self
      /\ n_times (set_max_value v (restart self)) = 0%Z
      /\ max_value (set_max_value v (restart self)) = v).
Proof.
  split.
  - intros ->. apply update_max_value_same.
  - intros Hne. apply Z.eqb_neq in Hne.
    destruct (restart_fields self) as (Hn & _ & _ & Hm).
    unfold update_max_value. rewrite Hne. cbn [negb].
    repeat split; try assumption. apply restart_unfold.
Qed.

End Updates.

(** ** The sequence of states *)

Section StateSequence.
Context {env : Environment}.

Lemma filter_new_singleton (st : State) (sts : list State) :
  filter (fun stt => stt ∉ sts) [st] = if decide (st ∈ sts) then [] else [st].
Proof.
  rewrite filter_cons.
  destruct (decide (st ∉ sts)) as [Hn|Hn], (decide (st ∈ sts)) as [Hy|Hy];
    try reflexivity; contradiction.
Qed.

(** What one call of [add_state] does, by the states it finds new. *)
Lemma add_state_cases (arg : states_arg) (self : ProgressBase) :
  let new := filter (fun stt => stt ∉ _states self) (as_tuple arg) in
  (new <> [] ->
     add_state arg self =
       emit (EvLog ("Added new states! " ++ tuple_repr (map State_repr new)))
            (set_states (_states self ++ new) self))
  /\ (new = [] -> add_state arg self = self).
Proof.
  intros new.
  assert (H : add_state arg self = _filter_and_add_state (as_tuple arg) self).
  { destruct arg; reflexivity. }
  rewrite H. unfold _filter_and_add_state. fold new.
  split; intros Hnew.
  - destruct new; [contradiction | reflexivity].
  - now rewrite Hnew.
Qed.

Lemma occurrences_app (st : State) (l1 l2 : list State) :
  occurrences st (l1 ++ l2) = (occurrences st l1 + occurrences st l2)%nat.
Proof. apply count_occ_app. Qed.

Lemma occurrences_zero (st : State) (sts : list State) :
  st ∉ sts <-> occurrences st sts = 0%nat.
Proof. rewrite list_elem_of_In. apply count_occ_not_In. Qed.


(** C10: the constructor starts from the default states and appends the
    states passed that are not among them; the sequence begins with Bar,
    Percent, Time, and holds every default and every state passed. *)
Theorem ProgressBase_init_keeps_defaults
  (console : list event) (max_value : Z) (states : states_arg) :
  let self := ProgressBase__init__ console max_value states in
  _states self =
    ([StateBar; StatePercent; StateTime]
     ++ filter (fun stt => stt ∉ default_states) (as_tuple states))%list
  /\ take 3 (_states self) = [StateBar; StatePercent; StateTime]
  /\ (forall st, st ∈ default_states -> st ∈ _states self)
  /\ (forall st, st ∈ as_tuple states -> st ∈ _states self).
Proof.
  intros self.
  assert (Hst : _states self =
    (default_states
     ++ filter (fun stt => stt ∉ default_states) (as_tuple states))%list).
  { subst self. unfold ProgressBase__init__. cbn [_states set_max_value].
    match goal with |- _states (add_state _ ?s0) = _ =>
      destruct (add_state_cases states s0) as [Hnew Hold] end.
    cbn [_states] in Hnew, Hold.
    destruct (filter _ (as_tuple states)) as [|x new] eqn:E.
    - rewrite Hold by reflexivity. cbn [_states]. now rewrite app_nil_r.
    - rewrite Hnew by discriminate. reflexivity. }
  split; [exact Hst|]. split; [now rewrite Hst|]. split.
  - intros st Hin. rewrite Hst. apply elem_of_app. now left.
  - intros st Hin. rewrite Hst. apply elem_of_app.
    destruct (decide (st ∈ default_states)) as [Hd|Hd]; [now left | right].
    apply list_elem_of_filter. split; assumption.
Qed.

(** The [style] option of [Progress] is the one thing that replaces a
    default: it puts the loading state in the first position. *)
Lemma Progress_init_states (max_value : Z) (states : states_arg) :
  (exists self, Progress__init__ max_value states None = Return tt self
     /\ take 3 (_states self) = [StateBar; StatePercent; StateTime])
  /\ (exists self, Progress__init__ max_value states (Some "loading") = Return tt self
     /\ take 3 (_states self) = [StateLoading; StatePercent; StateTime]).
Proof.
  unfold Progress__init__.
  set (s0 := ProgressBase__init__ [] 100 states).
  assert (Hst : exists rest,
             _states s0 = StateBar :: StatePercent :: StateTime :: rest).
  { subst s0. unfold ProgressBase__init__. cbn [_states set_max_value].
    match goal with |- exists _, _states (add_state _ ?s) = _ =>
      destruct (add_state_cases states s) as [Hnew Hold] end.
    cbn [_states] in Hnew, Hold.
    destruct (filter _ (as_tuple states)) as [|x new] eqn:E.
    - rewrite Hold by reflexivity. now exists [].
    - rewrite Hnew by discriminate. now exists (x :: new). }
  destruct Hst as [rest Hst].
  set (s1 := if (max_value =? 0)%Z then s0 else set_max_value max_value s0).
  assert (Hs1 : _states s1 = StateBar :: StatePercent :: StateTime :: rest)
    by (subst s1; now destruct (max_value =? 0)%Z).
  split.
  - eexists. split; [reflexivity|]. now rewrite Hs1.
  - cbn -[ProgressBase__init__].
    unfold __setitem__, py_assign. rewrite Hs1. cbn. eexists. split; reflexivity.
Qed.

End StateSequence.

(** ** Indexed reads *)

Section Subscripts.
Context {env : Environment}.

(** A single position at or past the end is an index error. *)
Lemma getitem_int_out_of_range (self : ProgressBase) (i : Z) :
  (__len__ self <= i)%Z ->
  __getitem__ (KInt i) self =
    Raise (index_error "tuple index out of range") self.
Proof.
  intros Hi. unfold __getitem__, py_index, __len__ in *.
  assert (H0 : (0 <=? i)%Z = true) by (apply Z.leb_le; lia).
  rewrite H0, lookup_ge_None_2; [reflexivity | lia].
Qed.

(** A tuple whose largest position is past the number of states is an
    index error. *)
Lemma getitem_tuple_past_length (self : ProgressBase) (i0 : Z) (rest : list Z) :
  (__len__ self < py_max i0 rest)%Z ->
  __getitem__ (KTuple (i0 :: rest)) self =
    Raise (index_error (str_of_Z (py_max i0 rest) ++ " isn't in progress")) self.
Proof.
  intros H. apply Z.ltb_lt in H. unfold __getitem__. now rewrite H.
Qed.

(** C9 fails on the code: a tuple that holds the position equal to the
    number of states is answered without an error, and that position is
    left out of the answer. *)
Theorem getitem_tuple_drops_position_len (self : ProgressBase) :
  __getitem__ (KTuple [__len__ self]) self = Return (ItemTuple []) self
  /\ (forall st rest, _states self = st :: rest ->
        __getitem__ (KTuple [0%Z; __len__ self]) self
          = Return (ItemTuple [st]) self).
Proof.
  split.
  - unfold __getitem__, py_max. cbn [fold_left select].
    rewrite Z.ltb_irrefl. unfold __len__. now rewrite Z.ltb_irrefl.
  - intros st rest Hst. unfold __getitem__, py_max, __len__.
    rewrite Hst. cbn [fold_left select length].
    assert (Hmax : Z.max 0 (Z.of_nat (S (length rest))) = Z.of_nat (S (length rest)))
      by lia.
    rewrite Hmax, Z.ltb_irrefl.
    assert (H0 : (0 <? Z.of_nat (S (length rest)))%Z = true)
      by (apply Z.ltb_lt; lia).
    rewrite H0. reflexivity.
Qed.

End Subscripts.

(** ** The scoped session *)

Section ScopedSession.
Context {env : Environment} {fmt : Formatting}.

Lemma console_stop (self : ProgressBase) :
  console (stop self) =
    (console self ++ if started self then [EvAwaitingJoin; EvDisable] else [])%list.
Proof.
  unfold stop. destruct (started self); cbn.
  - now rewrite <- app_assoc.
  - now rewrite app_nil_r.
Qed.

(** [error] raises what [str.format_map] raises on the message. *)
Lemma error_raises_what_format_map_raises (msg : string) (failure : exn) :
  (0 < recursion_limit)%nat ->
  format_map (_normalize_format ("Error: " ++ msg)) = FmtRaise failure ->
  ConsoleBase_error_raises msg = Some failure.
Proof.
  intros Hlimit Hfmt. unfold ConsoleBase_error_raises.
  destruct recursion_limit as [|depth]; [lia|].
  cbn [ConsoleBase_error_at]. unfold ConsoleBase_format, template_format.
  now rewrite Hfmt.
Qed.

(** The three ways through [__exit__]: nothing to report, a report that is
    written, a report whose formatting raises. *)
Lemma exit_without_report (exc : option (exn * traceback)) (self : ProgressBase) :
  match exc with
  | Some (e, _) =>
      (isinstance_Exception e && negb (isinstance_DeprecationWarning e))%bool = false
  | None => True
  end ->
  __exit__ exc self = Return false (stop self).
Proof.
  unfold __exit__. destruct exc as [[e tb]|]; [|reflexivity].
  now intros ->.
Qed.

Lemma exit_with_report (e : exn) (tb : traceback) (self : ProgressBase) :
  let report := os_path_basename (co_filename tb) ++ ":"
                ++ str_of_Z (tb_lineno tb) ++ ": " ++ exc_str e in
  isinstance_Exception e = true -> isinstance_DeprecationWarning e = false ->
  __exit__ (Some (e, tb)) self =
    match ConsoleBase_error_raises report with
    | Some failure => Raise failure (emit (EvError report) self)
    | None => Return false (stop (emit (EvError report) self))
    end.
Proof.
  intros report HE HD. unfold __exit__, console_error. rewrite HE, HD.
  cbn [andb negb]. fold report.
  now destruct (ConsoleBase_error_raises report).
Qed.

(** C8 fails on the code: when the formatting of the report raises, as
    [str.format_map] does on a message with a lone brace, [__exit__] raises
    that exception; [self.stop()] is not reached, so the session is as
    running as it was and the console has been neither joined nor disabled,
    and the block raises the exception of the formatting in place of the
    error that unwound through it. *)
Theorem exit_skips_stop_when_report_fails
  (self : ProgressBase) (e : exn) (tb : traceback) (failure : exn) :
  let report := os_path_basename (co_filename tb) ++ ":"
                ++ str_of_Z (tb_lineno tb) ++ ": " ++ exc_str e in
  isinstance_Exception e = true -> isinstance_DeprecationWarning e = false ->
  (0 < recursion_limit)%nat ->
  format_map (_normalize_format ("Error: " ++ report)) = FmtRaise failure ->
  __exit__ (Some (e, tb)) self = Raise failure (emit (EvError report) self)
  /\ started (block_session (__exit__ (Some (e, tb)) self)) = started self
  /\ console (block_session (__exit__ (Some (e, tb)) self)) =
       (console self ++ [EvError report])%list
  /\ (forall (A : Type) (body : ProgressBase -> block_end A) self0,
        body (__enter__ self0) = BlockRaise e tb self ->
        with_ body self0 = Raise failure (emit (EvError report) self)).
Proof.
  intros report HE HD Hlimit Hfmt.
  pose proof (error_raises_what_format_map_raises report failure Hlimit Hfmt)
    as Hraises.
  assert (Hexit : __exit__ (Some (e, tb)) self =
                  Raise failure (emit (EvError report) self)).
  { rewrite (exit_with_report e tb self HE HD). fold report. now rewrite Hraises. }
  split; [exact Hexit|]. rewrite Hexit. cbn [block_session].
  split; [reflexivity|]. split; [reflexivity|].
  intros A body self0 Hbody. unfold with_. now rewrite Hbody, Hexit.
Qed.

(** X26: when an exception that is an [Exception] and no
    [DeprecationWarning] leaves the block and the formatting of its report
    does not raise, [__exit__] hands the report, file, line and message, to
    [console.error] before it stops the session; a [DeprecationWarning] is
    not reported and the session is stopped all the same. Whenever
    [__exit__] returns, it returns a false value, so the exception goes on,
    and the session does not run. *)
Theorem exit_reports_then_stops
  (self : ProgressBase) (e : exn) (tb : traceback) :
  let report := os_path_basename (co_filename tb) ++ ":"
                ++ str_of_Z (tb_lineno tb) ++ ": " ++ exc_str e in
  let tail := if started self then [EvAwaitingJoin; EvDisable] else [] in
  (isinstance_Exception e = true -> isinstance_DeprecationWarning e = false ->
   ConsoleBase_error_raises report = None ->
     __exit__ (Some (e, tb)) self =
       Return false (stop (emit (EvError report) self))
     /\ console (stop (emit (EvError report) self)) =
          (console self ++ [EvError report] ++ tail)%list)
  /\ (isinstance_DeprecationWarning e = true ->
       __exit__ (Some (e, tb)) self = Return false (stop self)
       /\ console (stop self) = (console self ++ tail)%list)
  /\ (forall exc suppress self',
       __exit__ exc self = Return suppress self' ->
       suppress = false /\ started self' = false).
Proof.
  intros report tail. split; [|split].
  - intros HE HD Hquiet. rewrite (exit_with_report e tb self HE HD).
    fold report. rewrite Hquiet. split; [reflexivity|].
    rewrite console_stop. cbn [console emit started]. fold tail.
    now rewrite <- app_assoc.
  - intros HD. split; [|apply console_stop].
    apply exit_without_report. rewrite HD. cbn [negb]. apply andb_false_r.
  - intros exc suppress self' Hexit. unfold __exit__ in Hexit.
    match type of Hexit with
    | match ?r with _ => _ end = _ => destruct r as [u s1|f s1]
    end; [|discriminate].
    inversion Hexit; subst. split; [reflexivity | apply started_stop].
Qed.

End ScopedSession.

(** ** The sequence adapter *)

Section Adapter.
Context {env : Environment} {A : Type}.

Lemma update_max_value_int (v : Z) (self : ProgressBase) :
  exists self', update_max_value (PyInt v) self = Return tt self'.
Proof.
  unfold update_max_value. destruct (negb _); eexists; reflexivity.
Qed.

(** One round of the loop while the session runs: the update, then the
    element. *)
Lemma loop_from_element (j : nat) (g : generator A) (p : ProgressBase) (v : A) :
  gen_sequence g !! j = Some v -> started p = true ->
  exists p1,
    loop_from j g p =
      (Yield v, at_frame (FrameYielded j) [CShow (Z.of_nat j)] g, p1)
    /\ started p1 = true.
Proof.
  intros Hv Hs. unfold loop_from. rewrite Hv, Hs, show_progress_None.
  eexists. split; [reflexivity|]. cbn [started emit].
  destruct (_states_view_fields (Z.of_nat j) p) as (_ & -> & _). exact Hs.
Qed.

(** Past the last element the loop ends and the session is stopped. *)
Lemma loop_from_end (j : nat) (g : generator A) (p : ProgressBase) :
  gen_sequence g !! j = None ->
  loop_from j g p = (StopIteration, at_frame FrameFinished [CStop] g, stop p).
Proof. intros Hv. unfold loop_from. now rewrite Hv. Qed.

Lemma shows_cons (j count : nat) :
  shows j (S count) = CShow (Z.of_nat j) :: shows (S j) count.
Proof. reflexivity. Qed.

(** With the session stopped the guard skips the update: the element is
    yielded without a call. *)
Lemma loop_from_stopped (j : nat) (g : generator A) (p : ProgressBase) (v : A) :
  gen_sequence g !! j = Some v -> started p = false ->
  loop_from j g p = (Yield v, at_frame (FrameYielded j) [] g, p).
Proof. intros Hv Hs. unfold loop_from. now rewrite Hv, Hs. Qed.

(** A consumer that resumes a generator suspended at element [k]. *)
Lemma consume_suspended (body : A -> ProgressBase -> ProgressBase)
  (Hbody : forall a p, started p = true -> started (body a p) = true)
  (budget : nat) :
  forall (k : nat) (g : generator A) (p : ProgressBase),
  gen_frame g = FrameYielded k -> started p = true ->
  let rest := drop (S k) (gen_sequence g) in
  exists g' p',
    consume body budget g p = (take budget rest, g', p')
    /\ gen_frame g' = FrameFinished
    /\ if (length rest <? budget)%nat then
         gen_calls g' = (gen_calls g ++ shows (S k) (length rest) ++ [CStop])%list
         /\ started p' = false
       else
         gen_calls g' = (gen_calls g ++ shows (S k) budget)%list
         /\ started p' = true.
Proof.
  induction budget as [|b IH]; intros k g p Hframe Hs rest.
  - exists (gen_close g), p. cbn [consume]. rewrite take_0.
    split; [reflexivity|]. split; [reflexivity|].
    assert (Hb : (length rest <? 0)%nat = false) by apply Nat.ltb_ge, Nat.le_0_l.
    rewrite Hb. split; [|exact Hs]. cbn. now rewrite app_nil_r.
  - cbn [consume]. unfold gen_next. rewrite Hframe.
    destruct (gen_sequence g !! S k) as [v|] eqn:Hv.
    + destruct (loop_from_element (S k) g p v Hv Hs) as (p1 & -> & Hs1).
      set (g1 := at_frame (FrameYielded (S k)) [CShow (Z.of_nat (S k))] g).
      destruct (IH (S k) g1 (body v p1) eq_refl (Hbody v p1 Hs1))
        as (g' & p' & Hc & Hf & Hcalls).
      rewrite Hc. exists g', p'.
      assert (Hrest : rest = v :: drop (S (S k)) (gen_sequence g))
        by (subst rest; now apply drop_S).
      change (gen_sequence g1) with (gen_sequence g) in *.
      rewrite Hrest. split; [reflexivity|]. split; [exact Hf|].
      cbn [length]. change (S (length (drop (S (S k)) (gen_sequence g))) <? S b)%nat
        with (length (drop (S (S k)) (gen_sequence g)) <? b)%nat.
      rewrite shows_cons.
      change (gen_calls g1) with (gen_calls g ++ [CShow (Z.of_nat (S k))])%list in Hcalls.
      destruct (_ <? b)%nat; destruct Hcalls as [-> ->];
        (split; [now rewrite <- app_assoc | reflexivity]).
    + rewrite (loop_from_end _ _ _ Hv).
      assert (Hrest : rest = []).
      { subst rest. apply drop_ge. apply lookup_ge_None in Hv. lia. }
      rewrite Hrest. eexists _, _. split; [reflexivity|].
      split; [reflexivity|]. cbn. split; [reflexivity | apply started_stop].
Qed.

Lemma CStop_not_in_shows (j count : nat) : CStop ∉ shows j count.
Proof.
  unfold shows. intros Hin. apply list_elem_of_fmap in Hin as (i & Hi & _).
  discriminate.
Qed.


(** A round of the loop on an element yields it and calls at most the
    update. *)
Lemma loop_from_yields_without_stop (j : nat) (g : generator A)
  (p : ProgressBase) (v : A) :
  gen_sequence g !! j = Some v ->
  exists cs p1,
    loop_from j g p = (Yield v, at_frame (FrameYielded j) cs g, p1)
    /\ CStop ∉ cs.
Proof.
  intros Hv. unfold loop_from. rewrite Hv.
  destruct (started p).
  - rewrite show_progress_None. eexists _, _. split; [reflexivity|].
    intros Hin. apply list_elem_of_singleton in Hin. discriminate.
  - eexists _, _. split; [reflexivity|]. apply not_elem_of_nil.
Qed.

(** A consumer that leaves before the sequence ends. *)
Lemma consume_leaves_early (body : A -> ProgressBase -> ProgressBase)
  (budget : nat) :
  forall (k : nat) (g : generator A) (p : ProgressBase),
  gen_frame g = FrameYielded k ->
  (budget <= length (drop (S k) (gen_sequence g)))%nat ->
  CStop ∉ gen_calls g ->
  exists g' p',
    consume body budget g p = (take budget (drop (S k) (gen_sequence g)), g', p')
    /\ gen_frame g' = FrameFinished
    /\ CStop ∉ gen_calls g'.
Proof.
  induction budget as [|b IH]; intros k g p Hframe Hlen Hcalls.
  - exists (gen_close g), p. rewrite take_0.
    split; [reflexivity|]. split; [reflexivity|].
    cbn. now rewrite app_nil_r.
  - cbn [consume]. unfold gen_next. rewrite Hframe.
    destruct (gen_sequence g !! S k) as [v|] eqn:Hv.
    + destruct (loop_from_yields_without_stop (S k) g p v Hv)
        as (cs & p1 & -> & Hcs).
      set (g1 := at_frame (FrameYielded (S k)) cs g).
      rewrite (drop_S _ _ _ Hv) in Hlen |- *. cbn [length] in Hlen.
      destruct (IH (S k) g1 (body v p1) eq_refl) as (g' & p' & Hc & Hf & Hn).
      * change (gen_sequence g1) with (gen_sequence g). lia.
      * cbn. intros Hin. apply elem_of_app in Hin as [Hin|Hin]; contradiction.
      * rewrite Hc. change (gen_sequence g1) with (gen_sequence g).
        eexists _, _. split; [reflexivity|]. split; assumption.
    + apply lookup_ge_None in Hv. rewrite drop_ge in Hlen by lia.
      cbn [length] in Hlen. lia.
Qed.

(** C2 fails on the code: when the consumer leaves before the sequence is
    exhausted, whatever the body of its loop does, the loop has received the
    first elements and the generator is closed, but the adapter has not
    called [stop()]: the call stands after the loop and there is no
    [finally]. With a body that keeps the session running, the session
    still runs after the loop is left. *)
Theorem ProgressIterator_early_exit_skips_stop
  (body : A -> ProgressBase -> ProgressBase)
  (sequence : list A) (progress : ProgressBase) (budget : nat) :
  (0 < budget <= length sequence)%nat ->
  exists g p',
    wrap_and_consume body budget sequence progress
      = (take budget sequence, g, p')
    /\ gen_frame g = FrameFinished
    /\ (CStop ∉ gen_calls g)
    /\ ((forall a p, started p = true -> started (body a p) = true) ->
        started p' = true).
Proof.
  intros [Hpos Hle].
  unfold wrap_and_consume, ProgressIterator__init__.
  destruct (update_max_value_int (Z.of_nat (length sequence)) progress) as [p0 ->].
  set (g0 := __iter__ _).
  destruct budget as [|b]; [lia|].
  cbn [consume]. unfold gen_next. cbn [gen_frame g0 __iter__].
  set (gs := at_frame FrameCreated [CStart] g0).
  destruct (sequence !! 0%nat) as [v|] eqn:Hv;
    [|apply lookup_ge_None in Hv; lia].
  destruct (loop_from_element 0 gs (start p0) v Hv (started_start p0))
    as (p1 & -> & Hs1).
  set (g1 := at_frame (FrameYielded 0) [CShow (Z.of_nat 0)] gs).
  assert (Hseq : sequence = v :: drop 1 sequence)
    by exact (drop_S sequence v 0 Hv).
  assert (Hlen : (b <= length (drop 1 (gen_sequence g1)))%nat).
  { change (gen_sequence g1) with sequence.
    rewrite Hseq in Hle. cbn [length] in Hle. lia. }
  destruct (consume_leaves_early body b 0 g1 (body v p1) eq_refl Hlen)
    as (g' & p' & Hc & Hf & Hn).
  { cbn. intros Hin. apply list_elem_of_In in Hin. cbn in Hin.
    destruct Hin as [Hin|[Hin|[Hin|[]]]]; discriminate. }
  rewrite Hc. change (gen_sequence g1) with sequence in *.
  exists g', p'. split; [now rewrite Hseq at 2|]. split; [exact Hf|].
  split; [exact Hn|].
  intros Hbody.
  destruct (consume_suspended body Hbody b 0 g1 (body v p1) eq_refl
              (Hbody v p1 Hs1)) as (g2 & p2 & Hc2 & _ & Hcalls).
  rewrite Hc in Hc2. inversion Hc2; subst.
  assert (Hb : (length (drop 1 (gen_sequence g1)) <? b)%nat = false)
    by (apply Nat.ltb_ge; exact Hlen).
  rewrite Hb in Hcalls. now destruct Hcalls.
Qed.

End Adapter.

(** ** The theorems at concrete inputs *)

Section Concrete.
Local Existing Instance sample_env.
Local Existing Instance sample_fmt.

Lemma show_progress_completion_threshold_witness :
  max_value (fresh 10) = 10%Z /\ (0 < 10)%Z
  /\ fst (_states_view 9 (fresh 10)) =
       join " - " (map (fun st => done st (kwargs_for 9 (fresh 10)))
                       (_states (fresh 10)) ++ ["Done! " ++ done_unicode])
  /\ fst (_states_view 9 (fresh 10)) =
       "[==============================] - 100.00% - (clock) -1s total - Done! (check)"
  /\ fst (_states_view 8 (fresh 10)) =
       join " - " (map (fun st => display st (kwargs_for 8 (fresh 10)))
                       (_states (fresh 10)))
  /\ fst (_states_view 8 (fresh 10)) =
       "[========================>          ] - 080.00% - (clock+9) -2s estimated".
Proof.
  assert (Hpos : (0 < 10)%Z) by lia.
  split; [reflexivity|]. split; [exact Hpos|].
  destruct (show_progress_completion_threshold (fresh 10) 10 9 eq_refl Hpos)
    as (Hdone & _).
  destruct (show_progress_completion_threshold (fresh 10) 10 8 eq_refl Hpos)
    as (_ & Hdisplay & _).
  assert (Hge : (10 - 1 <= 9)%Z) by lia.
  assert (Hle : (8 <= 10 - 2)%Z) by lia.
  destruct (Hdone Hge) as (Hline & _).
  split; [exact Hline|]. split; [rewrite Hline; vm_compute; reflexivity|].
  split; [exact (Hdisplay Hle)|].
  rewrite (Hdisplay Hle). vm_compute. reflexivity.
Defined.

Lemma update_max_value_rejects_non_numbers_witness :
  is_number (PyStr "ten") = false
  /\ update_max_value (PyStr "ten") (fresh 100) =
       Raise {| exc_cls := ClsException;
                exc_str := "Current value ten isn't valid." |} (fresh 100).
Proof.
  split; [reflexivity|].
  destruct (update_max_value_rejects_non_numbers (fresh 100) (PyStr "ten"))
    as (Hraise & _).
  exact (Hraise eq_refl).
Defined.

(** C3 (as stated) fails at 0 and at -5: the call does not raise, the
    session is restarted (it now runs) and the maximum is replaced. *)
Lemma update_max_value_non_positive_counterexample :
  update_max_value (PyInt 0) (fresh 100) =
    Return tt (set_max_value 0 (restart (fresh 100)))
  /\ update_max_value (PyInt (-5)) (fresh 100) =
      Return tt (set_max_value (-5) (restart (fresh 100)))
  /\ max_value (fresh 100) = 100%Z
  /\ max_value (set_max_value 0 (restart (fresh 100))) = 0%Z
  /\ started (fresh 100) = false
  /\ started (set_max_value 0 (restart (fresh 100))) = true.
Proof. repeat split. Qed.

Lemma update_max_value_restarts_on_change_witness :
  100%Z = max_value (fresh 100) /\ 50%Z <> max_value (fresh 100)
  /\ update_max_value (PyInt 100) (fresh 100) = Return tt (fresh 100)
  /\ update_max_value (PyInt 50) (fresh 100) =
       Return tt (set_max_value 50 (restart (fresh 100)))
  /\ n_times (restart (fresh 100)) = 0%Z.
Proof.
  assert (Hne : 50%Z <> max_value (fresh 100)) by discriminate.
  split; [reflexivity|]. split; [exact Hne|].
  destruct (update_max_value_restarts_on_change (fresh 100) 100) as (Hsame & _).
  destruct (update_max_value_restarts_on_change (fresh 100) 50) as (_ & Hdiff).
  destruct (Hdiff Hne) as (Hupd & _ & Hn & _).
  split; [exact (Hsame eq_refl)|]. split; [exact Hupd | exact Hn].
Defined.



Lemma ProgressBase_init_keeps_defaults_witness :
  StateBar ∈ default_states
  /\ StateBar ∈ _states (ProgressBase__init__ [] 100 (ArgStates [StateLoading; StateBar]))
  /\ _states (ProgressBase__init__ [] 100 (ArgStates [StateLoading; StateBar])) =
       [StateBar; StatePercent; StateTime; StateLoading].
Proof.
  assert (Hin : StateBar ∈ default_states) by (apply list_elem_of_In; cbn; tauto).
  destruct (ProgressBase_init_keeps_defaults [] 100 (ArgStates [StateLoading; StateBar]))
    as (Hst & _ & Hdefaults & _).
  split; [exact Hin|]. split; [exact (Hdefaults StateBar Hin)|].
  rewrite Hst. vm_compute. reflexivity.
Defined.

Lemma getitem_tuple_drops_position_len_witness :
  _states (fresh 100) = [StateBar; StatePercent; StateTime]
  /\ __getitem__ (KTuple [0%Z; 3%Z]) (fresh 100) =
       Return (ItemTuple [StateBar]) (fresh 100).
Proof.
  split; [reflexivity|].
  destruct (getitem_tuple_drops_position_len (fresh 100)) as (_ & Hdrop).
  exact (Hdrop StateBar [StatePercent; StateTime] eq_refl).
Defined.

Lemma exit_skips_stop_when_report_fails_witness :
  isinstance_Exception lone_brace = true
  /\ isinstance_DeprecationWarning lone_brace = false
  /\ (0 < recursion_limit)%nat
  /\ format_map (_normalize_format ("Error: " ++ "job.py:12: {")) =
       FmtRaise (value_error "Single '{' encountered in format string")
  /\ __exit__ (Some (lone_brace, at_job_12)) (start (fresh 100)) =
       Raise (value_error "Single '{' encountered in format string")
             (emit (EvError "job.py:12: {") (start (fresh 100)))
  /\ started (block_session
                (__exit__ (Some (lone_brace, at_job_12)) (start (fresh 100)))) = true
  /\ console (block_session
                (__exit__ (Some (lone_brace, at_job_12)) (start (fresh 100)))) =
       [EvPersist; EvAwaitingStart; EvError "job.py:12: {"]
  /\ with_ (fun s => @BlockRaise Z lone_brace at_job_12 s) (fresh 100) =
       Raise (value_error "Single '{' encountered in format string")
             (emit (EvError "job.py:12: {") (start (fresh 100))).
Proof.
  assert (Hlimit : (0 < recursion_limit)%nat) by (cbn; lia).
  pose proof (exit_skips_stop_when_report_fails
                (start (fresh 100)) lone_brace at_job_12
                (value_error "Single '{' encountered in format string")
                eq_refl eq_refl Hlimit) as Hfails.
  cbv zeta in Hfails.
  assert (Hreport : (os_path_basename (co_filename at_job_12) ++ ":"
                     ++ str_of_Z (tb_lineno at_job_12) ++ ": "
                     ++ exc_str lone_brace) = "job.py:12: {")
    by (vm_compute; reflexivity).
  rewrite Hreport in Hfails.
  assert (Hfmt : format_map (_normalize_format ("Error: " ++ "job.py:12: {")) =
                 FmtRaise (value_error "Single '{' encountered in format string"))
    by (vm_compute; reflexivity).
  destruct (Hfails Hfmt) as (Hexit & Hstarted & Hconsole & Hblock).
  split; [reflexivity|]. split; [reflexivity|]. split; [exact Hlimit|].
  split; [exact Hfmt|]. split; [exact Hexit|].
  split; [rewrite Hstarted; reflexivity|].
  split; [rewrite Hconsole; reflexivity|].
  exact (Hblock Z (fun s => BlockRaise lone_brace at_job_12 s) (fresh 100) eq_refl).
Defined.

Lemma exit_reports_then_stops_witness :
  isinstance_Exception boom = true
  /\ isinstance_DeprecationWarning boom = false
  /\ ConsoleBase_error_raises "job.py:12: boom" = None
  /\ isinstance_DeprecationWarning old_api = true
  /\ __exit__ (Some (boom, at_job_12)) (start (fresh 100)) =
       Return false (stop (emit (EvError "job.py:12: boom") (start (fresh 100))))
  /\ console (stop (emit (EvError "job.py:12: boom") (start (fresh 100)))) =
       [EvPersist; EvAwaitingStart; EvError "job.py:12: boom";
        EvAwaitingJoin; EvDisable]
  /\ __exit__ (Some (old_api, at_job_12)) (start (fresh 100)) =
       Return false (stop (start (fresh 100)))
  /\ console (stop (start (fresh 100))) =
       [EvPersist; EvAwaitingStart; EvAwaitingJoin; EvDisable].
Proof.
  assert (Hquiet : ConsoleBase_error_raises "job.py:12: boom" = None)
    by (vm_compute; reflexivity).
  destruct (exit_reports_then_stops (start (fresh 100)) boom at_job_12)
    as (Hreport & _).
  destruct (exit_reports_then_stops (start (fresh 100)) old_api at_job_12)
    as (_ & Hexempt & _).
  destruct (Hreport eq_refl eq_refl Hquiet) as (Hexit & Hconsole).
  destruct (Hexempt eq_refl) as (Hexit' & Hconsole').
  split; [reflexivity|]. split; [reflexivity|]. split; [exact Hquiet|].
  split; [reflexivity|]. split; [exact Hexit|]. split; [exact Hconsole|].
  split; [exact Hexit' | exact Hconsole'].
Defined.


Lemma ProgressIterator_early_exit_skips_stop_witness :
  (0 < 2 <= length ["a"; "b"; "c"])%nat
  /\ (forall (a : string) p, started p = true -> started (idle_body a p) = true)
  /\ (exists g p',
        wrap_and_consume idle_body 2 ["a"; "b"; "c"] (fresh 100)
          = (["a"; "b"], g, p')
        /\ gen_frame g = FrameFinished
        /\ (CStop ∉ gen_calls g)
        /\ started p' = true).
Proof.
  assert (Hidle : forall (a : string) p,
             started p = true -> started (idle_body a p) = true)
    by (intros a p Hs; exact Hs).
  assert (Hbudget : (0 < 2 <= length ["a"; "b"; "c"])%nat) by (cbn; lia).
  split; [exact Hbudget|]. split; [exact Hidle|].
  destruct (ProgressIterator_early_exit_skips_stop
              idle_body ["a"; "b"; "c"] (fresh 100) 2 Hbudget)
    as (g & p' & Hrun & Hframe & Hcalls & Hstarted).
  exists g, p'. split; [exact Hrun|]. split; [exact Hframe|].
  split; [exact Hcalls | exact (Hstarted Hidle)].
Defined.

(** The same run, call by call: the consumer leaves after two of three
    elements, the adapter has not called [stop()] and the session still
    runs; the console has no [disable] after the last start. *)
Lemma ProgressIterator_early_exit_counterexample :
  let '(taken, g, p') :=
    wrap_and_consume idle_body 2 ["a"; "b"; "c"] (fresh 100) in
  taken = ["a"; "b"]
  /\ gen_calls g = [CUpdateMax 3; CStart; CShow 0; CShow 1]
  /\ ~ In CStop (gen_calls g)
  /\ gen_frame g = FrameFinished
  /\ started p' = true
  /\ last (console p') <> Some EvDisable.
Proof.
  vm_compute. repeat split; try discriminate.
  intros [H|[H|[H|[H|[]]]]]; discriminate.
Qed.

(** Behind the adapter's own calls the session restarts itself: once when
    wrapping changes the maximum from 100 to 3, and once more when [start()]
    finds the session running. *)
Lemma wrapping_restarts_session :
  let '(_, _, p') := wrap_and_consume idle_body 4 ["a"; "b"; "c"] (fresh 100) in
  life_cycle_events (console p') =
    [EvPersist; EvAwaitingStart;
     EvAwaitingJoin; EvDisable; EvPersist; EvAwaitingStart;
     EvPersist; EvAwaitingStart;
     EvAwaitingJoin; EvDisable].
Proof. vm_compute. reflexivity. Qed.

End Concrete.


(* ===================================================================== *)
(** * Further properties of the module *)

(** ** Starting, stopping and updating *)

Section LifeCycleMore.
Context {env : Environment}.

Lemma elapsed_keeps (self : ProgressBase) :
  let self' := snd (elapsed self) in
  _awaiting_update self' = _awaiting_update self
  /\ started_time self' = started_time self
  /\ (clock_reads self < clock_reads self')%nat.
Proof.
  unfold elapsed. cbn.
  destruct (started_time self) as [t0|]; [destruct (Qeq_bool t0 0)|]; cbn;
    repeat split; lia.
Qed.

Lemma _states_view_keeps (v : Z) (self : ProgressBase) :
  let self' := snd (_states_view v self) in
  _awaiting_update self' = false /\ started_time self' = started_time self.
Proof.
  unfold _states_view, view_kwargs.
  set (s1 := set_n_times _ _).
  pose proof (elapsed_keeps s1) as (Ha & Ht & _).
  destruct (elapsed s1) as [t s2]. cbn [snd] in *.
  split; [exact Ha | exact Ht].
Qed.

(** X1: [stop] on a session that does not run changes nothing, so stopping
    twice is the same as stopping once; [stop] always leaves the session
    not running and touches neither the call count, nor the states, nor the
    maximum, nor the start time. *)
Theorem stop_is_idempotent (self : ProgressBase) :
  stop (stop self) = stop self
  /\ (started self = false -> stop self = self)
  /\ started (stop self) = false
  /\ n_times (stop self) = n_times self
  /\ _states (stop self) = _states self
  /\ max_value (stop self) = max_value self
  /\ started_time (stop self) = started_time self.
Proof.
  assert (Hidle : forall s, started s = false -> stop s = s).
  { intros s Hs. unfold stop. now rewrite Hs. }
  split; [apply Hidle, started_stop|]. split; [apply Hidle|].
  split; [apply started_stop|].
  unfold stop. destruct (started self); cbn; repeat split.
Qed.

(** X2: [start] on a session that does not run tells the console to
    persist and starts one awaiting thread. On a session that runs it first
    restarts: the old thread is joined and the console disabled, then the
    console persists and an awaiting thread starts twice over, once in the
    restart and once in the rest of [start], so two threads are started for
    one that is joined. Either way the session then runs, awaits its first
    update, has call count 0 and keeps its states and maximum. *)
Theorem start_trace (self : ProgressBase) :
  (started self = false ->
     console (start self) = (console self ++ [EvPersist; EvAwaitingStart])%list
     /\ started_time (start self) = Some (time_time (clock_reads self)))
  /\ (started self = true ->
       console (start self) =
         (console self ++ [EvAwaitingJoin; EvDisable; EvPersist; EvAwaitingStart;
                           EvPersist; EvAwaitingStart])%list
       /\ awaiting_started (console (start self)) =
            (awaiting_started (console self) + 2)%nat
       /\ awaiting_joined (console (start self)) =
            (awaiting_joined (console self) + 1)%nat
       /\ started_time (start self) = Some (time_time (S (clock_reads self))))
  /\ started (start self) = true
  /\ _awaiting_update (start self) = true
  /\ n_times (start self) = 0%Z
  /\ _states (start self) = _states self
  /\ max_value (start self) = max_value self.
Proof.
  split; [|split].
  - intros Hs. unfold start. rewrite Hs. cbn. split; [|reflexivity].
    now rewrite <- app_assoc.
  - intros Hs. unfold start, restart, stop. rewrite Hs. cbn.
    assert (Hc : ((((((console self ++ [EvAwaitingJoin]) ++ [EvDisable])
                       ++ [EvPersist]) ++ [EvAwaitingStart]) ++ [EvPersist])
                   ++ [EvAwaitingStart])%list
                 = (console self ++ [EvAwaitingJoin; EvDisable; EvPersist;
                                     EvAwaitingStart; EvPersist; EvAwaitingStart])%list).
    { now rewrite <- !app_assoc. }
    rewrite Hc. split; [reflexivity|].
    unfold awaiting_started, awaiting_joined. rewrite !count_occ_app. cbn.
    repeat split; lia.
  - unfold start. destruct (started self) eqn:Hs.
    + destruct (restart_fields self) as (_ & _ & Hst & Hm).
      cbn. repeat split; assumption.
    + cbn. repeat split.
Qed.


(** X4: an update that brings a different maximum restarts the session
    before it renders: afterwards the session runs, whether it ran before
    or not, the new maximum is in place and the call count is 1. An update
    whose maximum is not a number raises before anything is rendered and
    leaves the session as it was. *)
Theorem show_progress_with_new_max (v m : Z) (bad : pyobj) (self : ProgressBase) :
  (m <> max_value self ->
     exists self' line,
       show_progress v (PyInt m) self = Return tt self'
       /\ console self' = (console (restart self) ++ [EvReplaceLast line])%list
       /\ n_times self' = 1%Z
       /\ max_value self' = m
       /\ started self' = true)
  /\ (is_number bad = false -> bad <> PyNone ->
       exists e, show_progress v bad self = Raise e self
                 /\ exc_cls e = ClsException).
Proof.
  split.
  - intros Hne. apply Z.eqb_neq in Hne.
    unfold show_progress, update_max_value. rewrite Hne. cbn [negb].
    set (s1 := set_max_value m (restart self)).
    destruct (_states_view_fields v s1) as (Hn & Hs & _ & Hm & Hc).
    destruct (_states_view v s1) as [line s2]. cbn [snd] in *.
    destruct (restart_fields self) as (Hn0 & Hs0 & _).
    exists (emit (EvReplaceLast line) s2), line.
    split; [reflexivity|]. cbn [console emit n_times max_value started].
    rewrite Hc, Hn, Hm, Hs. subst s1. cbn [console n_times max_value started set_max_value].
    rewrite Hn0, Hs0. repeat split.
  - intros Hnum Hnone. destruct bad; [discriminate | | contradiction].
    eexists. split; reflexivity.
Qed.

Lemma updates_fields (values : list Z) :
  forall self,
    n_times (updates values self) = (n_times self + Z.of_nat (length values))%Z
    /\ length (console (updates values self)) =
         (length (console self) + length values)%nat
    /\ started (updates values self) = started self
    /\ max_value (updates values self) = max_value self.
Proof.
  induction values as [|v rest IH]; intros self.
  - cbn. repeat split; lia.
  - cbn [updates]. rewrite show_progress_None.
    destruct (_states_view_fields v self) as (Hn & Hs & _ & Hm & Hc).
    set (s1 := emit _ _).
    destruct (IH s1) as (IHn & IHc & IHs & IHm).
    rewrite IHn, IHc, IHs, IHm. subst s1.
    cbn [n_times console started max_value emit length].
    rewrite Hn, Hs, Hm, Hc, length_app. cbn. repeat split; lia.
Qed.

(** X5: the call count is the number of updates since the session was
    started: after [start] and one update for each of [values] it is the
    length of [values], and the console has received one line per update. *)
Theorem n_times_counts_updates (values : list Z) (self : ProgressBase) :
  n_times (updates values (start self)) = Z.of_nat (length values)
  /\ length (console (updates values (start self))) =
       (length (console (start self)) + length values)%nat
  /\ started (updates values (start self)) = true.
Proof.
  destruct (updates_fields values (start self)) as (Hn & Hc & Hs & _).
  rewrite Hn, Hc, Hs. repeat split.
Qed.

(** X6: [__repr__] is not a read-only view: the example line it builds is an
    update with the maximum as the value, so it is always the line of a
    finished session, the [done] fragments and then the marker, the text
    "Done! " followed by the check mark of the console, and it adds one to
    the call count and ends the awaiting phase. *)
Theorem repr_example_view_is_an_update (self : ProgressBase) :
  let kw := kwargs_for (max_value self) self in
  fst (__repr___example_view self) =
    join " - " (map (fun st => done st kw) (_states self)
                ++ ["Done! " ++ done_unicode])
  /\ (_states self <> [] ->
      fst (__repr___example_view self) =
        join " - " (map (fun st => done st kw) (_states self))
        ++ " - " ++ "Done! " ++ done_unicode)
  /\ n_times (snd (__repr___example_view self)) = (n_times self + 1)%Z
  /\ _awaiting_update (snd (__repr___example_view self)) = false.
Proof.
  unfold __repr___example_view. cbv zeta.
  rewrite _states_view_line. cbv zeta.
  assert (H : (max_value self - 1 <=? max_value self)%Z = true)
    by (apply Z.leb_le; lia).
  rewrite H. unfold done_marker. split; [reflexivity|].
  split.
  { intros Hne. apply join_snoc.
    destruct (_states self); [contradiction | discriminate]. }
  destruct (_states_view_fields (max_value self) self) as (Hn & _).
  destruct (_states_view_keeps (max_value self) self) as (Ha & _).
  split; assumption.
Qed.

(** X7: the time handed to the states is the reading of the clock minus the
    start time when the session has one that is not zero; for a session that
    was never started it is the difference of two successive readings of the
    clock, the later one subtracted from the earlier. *)
Theorem time_it_of_an_update (v : Z) (self : ProgressBase) :
  (forall t0, started_time self = Some t0 -> Qeq_bool t0 0 = false ->
     time_it (kwargs_for v self) = (time_time (clock_reads self) - t0)%Q)
  /\ (started_time self = None ->
       time_it (kwargs_for v self) =
         (time_time (clock_reads self) - time_time (S (clock_reads self)))%Q).
Proof.
  unfold kwargs_for, view_kwargs, elapsed. cbn.
  split.
  - intros t0 Ht H0. rewrite Ht, H0. reflexivity.
  - intros Ht. rewrite Ht. reflexivity.
Qed.

End LifeCycleMore.

(** ** More on the sequence of states *)

Section StateSequenceMore.
Context {env : Environment}.

Lemma filter_new_nil (sts passed : list State) :
  (forall st, st ∈ passed -> st ∈ sts) ->
  filter (fun stt => stt ∉ sts) passed = [].
Proof.
  induction passed as [|x rest IH]; intros Hall; [reflexivity|].
  rewrite filter_cons.
  destruct (decide (x ∉ sts)) as [Hn|_].
  - exfalso. apply Hn, Hall. now left.
  - apply IH. intros st Hst. apply Hall. now right.
Qed.

(** The states of the session after [add_state]. *)
Lemma add_state_states (arg : states_arg) (self : ProgressBase) :
  _states (add_state arg self) =
    (_states self ++ filter (fun stt => stt ∉ _states self) (as_tuple arg))%list.
Proof.
  destruct (add_state_cases arg self) as [Hnew Hold]. cbv zeta in *.
  destruct (filter _ (as_tuple arg)) as [|x new] eqn:E.
  - rewrite Hold by reflexivity. now rewrite app_nil_r.
  - rewrite Hnew by discriminate. reflexivity.
Qed.

Lemma add_state_holds_passed (arg : states_arg) (self : ProgressBase) (st : State) :
  st ∈ as_tuple arg -> st ∈ _states (add_state arg self).
Proof.
  intros Hin. rewrite add_state_states. apply elem_of_app.
  destruct (decide (st ∈ _states self)) as [Hd|Hd]; [now left | right].
  apply list_elem_of_filter. split; assumption.
Qed.

(** X8: [add_state] is idempotent: repeating a call with the same argument
    changes nothing more, neither the states nor the console. *)
Theorem add_state_is_idempotent (arg : states_arg) (self : ProgressBase) :
  add_state arg (add_state arg self) = add_state arg self.
Proof.
  destruct (add_state_cases arg (add_state arg self)) as [_ Hold].
  apply Hold. apply filter_new_nil.
  intros st Hst. now apply add_state_holds_passed.
Qed.

(** X9: [add_state] only appends: the states the session had stay where
    they were, every state passed is in the sequence afterwards, nothing
    else gets in, and the call count, the running flag and the maximum are
    not touched. *)
Theorem add_state_only_appends (arg : states_arg) (self : ProgressBase) :
  _states self `prefix_of` _states (add_state arg self)
  /\ (forall st, st ∈ as_tuple arg -> st ∈ _states (add_state arg self))
  /\ (forall st, st ∈ _states (add_state arg self) ->
                 st ∈ _states self \/ st ∈ as_tuple arg)
  /\ n_times (add_state arg self) = n_times self
  /\ started (add_state arg self) = started self
  /\ max_value (add_state arg self) = max_value self.
Proof.
  split; [|split; [|split]].
  - rewrite add_state_states. now apply prefix_app_r.
  - intros st. apply add_state_holds_passed.
  - intros st. rewrite add_state_states, elem_of_app, list_elem_of_filter. tauto.
  - destruct (add_state_cases arg self) as [Hnew Hold]. cbv zeta in *.
    destruct (filter _ (as_tuple arg)) as [|x new] eqn:E.
    + rewrite Hold by reflexivity. repeat split.
    + rewrite Hnew by discriminate. repeat split.
Qed.

(** X10: a duplicate-free sequence stays duplicate-free when the states
    passed to [add_state] are themselves free of duplicates. *)
Theorem add_state_keeps_NoDup (arg : states_arg) (self : ProgressBase) :
  NoDup (_states self) -> NoDup (as_tuple arg) ->
  NoDup (_states (add_state arg self)).
Proof.
  intros Hs Ha. rewrite add_state_states. apply NoDup_app.
  split; [exact Hs|]. split; [|now apply NoDup_filter].
  intros st Hin Hnew. apply list_elem_of_filter in Hnew as [Hnot _].
  contradiction.
Qed.

Lemma py_index_position {A} (l : list A) (i : Z) :
  (- Z.of_nat (length l) <= i)%Z ->
  py_index l i = l !! position (length l) i.
Proof.
  intros Hi. unfold py_index, position.
  destruct (0 <=? i)%Z; [reflexivity|].
  assert (H : (- Z.of_nat (length l) <=? i)%Z = true) by (apply Z.leb_le; lia).
  now rewrite H.
Qed.

Lemma position_in_range (n : nat) (i : Z) :
  (- Z.of_nat n <= i < Z.of_nat n)%Z -> (position n i < n)%nat.
Proof.
  intros Hi. unfold position. destruct (0 <=? i)%Z eqn:E.
  - apply Z.leb_le in E. lia.
  - apply Z.leb_gt in E. lia.
Qed.

(** X11: a read by position succeeds exactly for [-len <= i < len], with
    negative positions counted from the end, so [-1] is the last state;
    any other position raises an index error and leaves the session as it
    was. *)
Theorem getitem_by_position (i : Z) (self : ProgressBase) :
  let n := length (_states self) in
  ((- Z.of_nat n <= i < Z.of_nat n)%Z ->
     exists st, __getitem__ (KInt i) self = Return (ItemState st) self
                /\ _states self !! position n i = Some st
                /\ (i = (-1)%Z -> last (_states self) = Some st))
  /\ (~ (- Z.of_nat n <= i < Z.of_nat n)%Z ->
       __getitem__ (KInt i) self =
         Raise (index_error "tuple index out of range") self).
Proof.
  intros n. split.
  - intros Hi. pose proof (position_in_range n i Hi) as Hpos.
    destruct (lookup_lt_is_Some_2 (_states self) (position n i) Hpos) as [st Hst].
    exists st. split; [|split; [exact Hst|]].
    + unfold __getitem__. rewrite py_index_position by (fold n; lia).
      fold n. now rewrite Hst.
    + intros ->. rewrite last_lookup, <- Hst. f_equal.
      unfold position. cbn. fold n. lia.
  - intros Hout. unfold __getitem__, py_index. fold n.
    destruct (0 <=? i)%Z eqn:E0.
    + apply Z.leb_le in E0. rewrite lookup_ge_None_2; [reflexivity | fold n; lia].
    + apply Z.leb_gt in E0.
      assert (H : (- Z.of_nat n <=? i)%Z = false) by (apply Z.leb_gt; lia).
      now rewrite H.
Qed.

(** X12: assigning a state at a position in [-len, len) and reading that
    position gives the state back; the assignment keeps the length and every
    other position. Outside that range it raises an index error, with a key
    that is not an int it raises "isn't possible!", and in both cases the
    session stays as it was. *)
Theorem setitem_then_getitem (i : Z) (value : State) (self : ProgressBase) :
  let n := length (_states self) in
  ((- Z.of_nat n <= i < Z.of_nat n)%Z ->
     exists self',
       __setitem__ (KInt i) value self = Return tt self'
       /\ __getitem__ (KInt i) self' = Return (ItemState value) self'
       /\ length (_states self') = n
       /\ (forall j, j <> position n i -> _states self' !! j = _states self !! j))
  /\ (~ (- Z.of_nat n <= i < Z.of_nat n)%Z ->
       __setitem__ (KInt i) value self =
         Raise (index_error "list assignment index out of range") self)
  /\ (forall key, (forall j, key <> KInt j) ->
       __setitem__ key value self =
         Raise {| exc_cls := ClsException; exc_str := "isn't possible!" |} self).
Proof.
  intros n. split; [|split].
  - intros Hi. pose proof (position_in_range n i Hi) as Hpos.
    assert (Hset : py_assign (_states self) i value =
                   Some (<[position n i := value]> (_states self))).
    { unfold py_assign, position. fold n. destruct (0 <=? i)%Z eqn:E0.
      - assert (H : (i <? Z.of_nat n)%Z = true) by (apply Z.ltb_lt; lia).
        now rewrite H.
      - cbn [andb]. apply Z.leb_gt in E0.
        assert (H1 : (- Z.of_nat n <=? i)%Z = true) by (apply Z.leb_le; lia).
        assert (H2 : (i <? 0)%Z = true) by (apply Z.ltb_lt; lia).
        now rewrite H1, H2. }
    unfold __setitem__. rewrite Hset. eexists. split; [reflexivity|].
    cbn [_states set_states]. split; [|split].
    + unfold __getitem__. cbn [_states set_states].
      rewrite py_index_position by (rewrite length_insert; fold n; lia).
      rewrite length_insert. fold n.
      rewrite list_lookup_insert_eq by exact Hpos. reflexivity.
    + apply length_insert.
    + intros j Hj. apply list_lookup_insert_ne. congruence.
  - intros Hout. unfold __setitem__, py_assign. fold n.
    destruct (0 <=? i)%Z eqn:E0; cbn [andb].
    + apply Z.leb_le in E0.
      assert (H : (i <? Z.of_nat n)%Z = false) by (apply Z.ltb_ge; lia).
      rewrite H.
      assert (H2 : (i <? 0)%Z = false) by (apply Z.ltb_ge; lia).
      rewrite H2, andb_false_r. reflexivity.
    + apply Z.leb_gt in E0.
      assert (H : (- Z.of_nat n <=? i)%Z = false) by (apply Z.leb_gt; lia).
      rewrite H. reflexivity.
  - intros key Hkey. destruct key as [j| |]; [now destruct (Hkey j) | reflexivity..].
Qed.

(** X13: a read by name answers exactly when the name is one of "loading",
    "time", "percent", "bar" and the state it names is in the sequence, and
    then it answers that state; every other name, and a known name whose
    state is absent, raises a key error. *)
Theorem getitem_by_name (k : string) (self : ProgressBase) :
  (forall st, key_map k = Some st -> st ∈ _states self ->
     __getitem__ (KStr k) self = Return (ItemState st) self)
  /\ (forall st, key_map k = Some st -> st ∉ _states self ->
       exists e, __getitem__ (KStr k) self = Raise e self
                 /\ exc_cls e = ClsKeyError)
  /\ (key_map k = None ->
       exists e, __getitem__ (KStr k) self = Raise e self
                 /\ exc_cls e = ClsKeyError)
  /\ (key_map k <> None <->
       k = "loading" \/ k = "time" \/ k = "percent" \/ k = "bar").
Proof.
  split; [|split; [|split]].
  - intros st Hk Hin. unfold __getitem__. rewrite Hk.
    now destruct (decide (st ∈ _states self)).
  - intros st Hk Hin. unfold __getitem__. rewrite Hk.
    destruct (decide (st ∈ _states self)); [contradiction|].
    eexists. split; reflexivity.
  - intros Hk. unfold __getitem__. rewrite Hk. eexists. split; reflexivity.
  - unfold key_map. split.
    + intros Hk.
      destruct (String.eqb_spec k "loading"); [tauto|].
      destruct (String.eqb_spec k "time"); [tauto|].
      destruct (String.eqb_spec k "percent"); [tauto|].
      destruct (String.eqb_spec k "bar"); [tauto|]. contradiction.
    + intros [Hk | [Hk | [Hk | Hk]]]; rewrite Hk; discriminate.
Qed.

Lemma py_max_below (bound first : Z) (rest : list Z) :
  (first < bound)%Z -> Forall (fun i => (i < bound)%Z) rest ->
  (py_max first rest < bound)%Z.
Proof.
  unfold py_max. revert first.
  induction rest as [|x rest IH]; intros first Hf Hall; cbn; [exact Hf|].
  apply Forall_cons in Hall as [Hx Hall]. apply IH; [lia | exact Hall].
Qed.

Lemma select_in_range (sts : list State) (idxs : list Z) :
  Forall (fun i => (- Z.of_nat (length sts) <= i < Z.of_nat (length sts))%Z) idxs ->
  exists picked,
    select sts idxs = Some picked
    /\ Forall2 (fun i st => sts !! position (length sts) i = Some st) idxs picked.
Proof.
  induction idxs as [|i rest IH]; intros Hall.
  - exists []. split; [reflexivity | constructor].
  - apply Forall_cons in Hall as [Hi Hall].
    destruct (IH Hall) as (picked & Hsel & Hpicked).
    pose proof (position_in_range _ i Hi) as Hpos.
    destruct (lookup_lt_is_Some_2 sts _ Hpos) as [st Hst].
    exists (st :: picked). cbn [select].
    assert (H : (i <? Z.of_nat (length sts))%Z = true) by (apply Z.ltb_lt; lia).
    rewrite H, py_index_position by lia. rewrite Hst, Hsel.
    split; [reflexivity | now constructor].
Qed.

(** X14: a read with a tuple of positions that all lie in [-len, len)
    answers the states at those positions, one for each position and in the
    order of the tuple; the empty tuple raises a value error. *)
Theorem getitem_by_tuple (idxs : list Z) (self : ProgressBase) :
  let n := length (_states self) in
  (idxs <> [] ->
   Forall (fun i => (- Z.of_nat n <= i < Z.of_nat n)%Z) idxs ->
   exists picked,
     __getitem__ (KTuple idxs) self = Return (ItemTuple picked) self
     /\ Forall2 (fun i st => _states self !! position n i = Some st) idxs picked)
  /\ (exists e, __getitem__ (KTuple []) self = Raise e self
                /\ exc_cls e = ClsValueError).
Proof.
  intros n. split.
  - intros Hne Hall. destruct idxs as [|i0 rest]; [contradiction|].
    destruct (select_in_range (_states self) (i0 :: rest) Hall)
      as (picked & Hsel & Hpicked).
    exists picked. split; [|exact Hpicked].
    unfold __getitem__. rewrite Hsel.
    assert (Hmax : (py_max i0 rest < Z.of_nat n)%Z).
    { apply Forall_cons in Hall as [Hi0 Hrest].
      apply py_max_below; [lia|].
      eapply Forall_impl; [exact Hrest|]. cbn. intros; lia. }
    assert (H : (__len__ self <? py_max i0 rest)%Z = false)
      by (apply Z.ltb_ge; unfold __len__; fold n; lia).
    now rewrite H.
  - eexists. split; reflexivity.
Qed.

End StateSequenceMore.

(** ** More on the scoped session *)

Section ScopedSessionMore.
Context {env : Environment} {fmt : Formatting} {A : Type}.

(** X15: a [with] block runs its body on a running session. A body that
    returns makes the block return its value with the session stopped and
    nothing reported. A body that raises an exception that is not reported,
    one that is no [Exception], such as a keyboard interrupt, or a
    [DeprecationWarning], makes the block raise it with the session stopped.
    A body that raises a reported exception makes the block raise it with
    the session stopped after the report, unless the formatting of the
    report raises: then the block raises that other exception and the
    session is not stopped. The block never swallows an exception, and
    whenever it returns the session does not run. *)
Theorem with_block_paths
  (body : ProgressBase -> block_end A) (self : ProgressBase) :
  started (__enter__ self) = true
  /\ (forall a self1, body (__enter__ self) = BlockReturn a self1 ->
        with_ body self = Return (Some a) (stop self1))
  /\ (forall e tb self1, body (__enter__ self) = BlockRaise e tb self1 ->
        let report := os_path_basename (co_filename tb) ++ ":"
                      ++ str_of_Z (tb_lineno tb) ++ ": " ++ exc_str e in
        with_ body self =
          if (isinstance_Exception e && negb (isinstance_DeprecationWarning e))%bool
          then
            match ConsoleBase_error_raises report with
            | Some failure => Raise failure (emit (EvError report) self1)
            | None => Raise e (stop (emit (EvError report) self1))
            end
          else Raise e (stop self1))
  /\ (forall r self', with_ body self = Return r self' ->
        started self' = false
        /\ exists a self1,
             r = Some a /\ body (__enter__ self) = BlockReturn a self1)
  /\ (forall e' self', with_ body self = Raise e' self' ->
        exists e tb self1,
          body (__enter__ self) = BlockRaise e tb self1
          /\ ((e' = e /\ started self' = false)
              \/ (ConsoleBase_error_raises
                    (os_path_basename (co_filename tb) ++ ":"
                     ++ str_of_Z (tb_lineno tb) ++ ": " ++ exc_str e) = Some e'
                  /\ started self' = started self1))).
Proof.
  assert (Hraise : forall e tb self1,
             body (__enter__ self) = BlockRaise e tb self1 ->
             with_ body self =
               if (isinstance_Exception e
                   && negb (isinstance_DeprecationWarning e))%bool
               then
                 match ConsoleBase_error_raises
                         (os_path_basename (co_filename tb) ++ ":"
                          ++ str_of_Z (tb_lineno tb) ++ ": " ++ exc_str e) with
                 | Some failure =>
                     Raise failure
                       (emit (EvError (os_path_basename (co_filename tb) ++ ":"
                                       ++ str_of_Z (tb_lineno tb) ++ ": "
                                       ++ exc_str e)) self1)
                 | None =>
                     Raise e
                       (stop (emit (EvError (os_path_basename (co_filename tb)
                                             ++ ":" ++ str_of_Z (tb_lineno tb)
                                             ++ ": " ++ exc_str e)) self1))
                 end
               else Raise e (stop self1)).
  { intros e tb self1 Hb. unfold with_. rewrite Hb.
    unfold __exit__, console_error.
    destruct (isinstance_Exception e && negb (isinstance_DeprecationWarning e))%bool;
      [|reflexivity].
    now destruct (ConsoleBase_error_raises _). }
  split; [apply started_start|]. split; [|split; [|split]].
  - intros a self1 Hb. unfold with_. now rewrite Hb.
  - intros e tb self1 Hb report. exact (Hraise e tb self1 Hb).
  - intros r self' Hw.
    destruct (body (__enter__ self)) as [a s1|e tb s1] eqn:Hb.
    + unfold with_ in Hw. rewrite Hb in Hw. cbn in Hw. inversion Hw; subst.
      split; [apply started_stop|]. now exists a, s1.
    + rewrite (Hraise e tb s1 eq_refl) in Hw.
      destruct (isinstance_Exception e && negb (isinstance_DeprecationWarning e))%bool;
        [destruct (ConsoleBase_error_raises _)|]; discriminate.
  - intros e' self' Hw.
    destruct (body (__enter__ self)) as [a s1|e tb s1] eqn:Hb.
    + unfold with_ in Hw. rewrite Hb in Hw. cbn in Hw. discriminate.
    + exists e, tb, s1. split; [reflexivity|].
      rewrite (Hraise e tb s1 eq_refl) in Hw.
      destruct (isinstance_Exception e && negb (isinstance_DeprecationWarning e))%bool.
      * destruct (ConsoleBase_error_raises _) as [failure|] eqn:Hf.
        -- inversion Hw; subst. right. split; reflexivity.
        -- inversion Hw; subst. left. split; [reflexivity | apply started_stop].
      * inversion Hw; subst. left. split; [reflexivity | apply started_stop].
Qed.

End ScopedSessionMore.

(** ** More on the sequence adapter *)

Section AdapterMore.
Context {env : Environment} {A : Type}.

(** A round of the loop on an element yields it, running or not. *)
Lemma loop_from_yields (j : nat) (g : generator A) (p : ProgressBase) (v : A) :
  gen_sequence g !! j = Some v ->
  exists cs p1,
    loop_from j g p = (Yield v, at_frame (FrameYielded j) cs g, p1).
Proof.
  intros Hv. unfold loop_from. rewrite Hv.
  destruct (started p); [|eexists _, _; reflexivity].
  rewrite show_progress_None. eexists _, _. reflexivity.
Qed.

Lemma consume_elements (body : A -> ProgressBase -> ProgressBase) (budget : nat) :
  forall (k : nat) (g : generator A) (p : ProgressBase),
  gen_frame g = FrameYielded k ->
  (consume body budget g p).1.1 = take budget (drop (S k) (gen_sequence g)).
Proof.
  induction budget as [|b IH]; intros k g p Hframe.
  - now rewrite take_0.
  - cbn [consume]. unfold gen_next. rewrite Hframe.
    destruct (gen_sequence g !! S k) as [v|] eqn:Hv.
    + destruct (loop_from_yields (S k) g p v Hv) as (cs & p1 & ->).
      set (g1 := at_frame (FrameYielded (S k)) cs g).
      specialize (IH (S k) g1 (body v p1) eq_refl).
      destruct (consume body b g1 (body v p1)) as [[taken g'] p'].
      cbn [fst] in *. rewrite IH.
      change (gen_sequence g1) with (gen_sequence g).
      now rewrite (drop_S _ _ _ Hv).
    + rewrite (loop_from_end _ _ _ Hv). cbn [fst].
      rewrite drop_ge; [now destruct b | apply lookup_ge_None in Hv; lia].
Qed.


(** A consumer that resumes a generator while the session is stopped. *)
Lemma consume_stopped (body : A -> ProgressBase -> ProgressBase)
  (Hbody : forall a p, started (body a p) = false) (budget : nat) :
  forall (k : nat) (g : generator A) (p : ProgressBase),
  gen_frame g = FrameYielded k -> started p = false ->
  let rest := drop (S k) (gen_sequence g) in
  exists g' p',
    consume body budget g p = (take budget rest, g', p')
    /\ started p' = false
    /\ gen_calls g' =
         (gen_calls g ++ if (length rest <? budget)%nat then [CStop] else [])%list.
Proof.
  induction budget as [|b IH]; intros k g p Hframe Hs rest.
  - exists (gen_close g), p. cbn. rewrite take_0. now rewrite app_nil_r.
  - cbn [consume]. unfold gen_next. rewrite Hframe.
    destruct (gen_sequence g !! S k) as [v|] eqn:Hv.
    + rewrite (loop_from_stopped (S k) g p v Hv Hs).
      set (g1 := at_frame (FrameYielded (S k)) [] g).
      destruct (IH (S k) g1 (body v p) eq_refl (Hbody v p))
        as (g' & p' & Hc & Hs' & Hcalls).
      rewrite Hc. exists g', p'.
      change (gen_sequence g1) with (gen_sequence g) in *.
      assert (Hrest : rest = v :: drop (S (S k)) (gen_sequence g))
        by (subst rest; now apply drop_S).
      rewrite Hrest. split; [reflexivity|]. split; [exact Hs'|].
      rewrite Hcalls. cbn [length gen_calls g1 at_frame].
      rewrite app_nil_r. reflexivity.
    + rewrite (loop_from_end _ _ _ Hv).
      assert (Hrest : rest = []).
      { subst rest. apply drop_ge. apply lookup_ge_None in Hv. lia. }
      rewrite Hrest. eexists _, _. split; [reflexivity|].
      split; [apply started_stop | reflexivity].
Qed.


(** X18: wrapping a sequence already acts on the session, before any
    element is asked for: the maximum becomes the length of the sequence,
    and unless it was that already the session is restarted on the spot, so
    it runs and its call count is 0; when the length is the maximum the
    session is left as it was. *)
Theorem wrapping_sets_the_maximum (items : list A) (progress : ProgressBase) :
  let n := Z.of_nat (length items) in
  exists it progress',
    ProgressIterator__init__ items progress = Return it progress'
    /\ sequence it = items
    /\ max_value progress' = n
    /\ (n = max_value progress -> progress' = progress)
    /\ (n <> max_value progress ->
         started progress' = true /\ n_times progress' = 0%Z
         /\ console progress' =
              (console (stop progress) ++ [EvPersist; EvAwaitingStart])%list).
Proof.
  intros n. unfold ProgressIterator__init__, update_max_value. fold n.
  destruct (n =? max_value progress)%Z eqn:E; cbn [negb].
  - apply Z.eqb_eq in E. eexists _, _. split; [reflexivity|].
    split; [reflexivity|]. split; [now rewrite E|].
    split; [reflexivity | intros Hne; contradiction].
  - apply Z.eqb_neq in E. eexists _, _. split; [reflexivity|].
    split; [reflexivity|]. split; [reflexivity|].
    split; [intros; contradiction|]. intros _.
    unfold restart. cbn. repeat split. now rewrite <- app_assoc.
Qed.

End AdapterMore.

Section AdapterAgain.
Context {env : Environment} {A : Type}.

(** A consumer that runs a new generator to its end. *)
Lemma consume_created (body : A -> ProgressBase -> ProgressBase)
  (Hbody : forall a p, started p = true -> started (body a p) = true)
  (budget : nat) (g : generator A) (p : ProgressBase) :
  gen_frame g = FrameCreated ->
  (length (gen_sequence g) < budget)%nat ->
  exists g' p',
    consume body budget g p = (gen_sequence g, g', p')
    /\ gen_frame g' = FrameFinished
    /\ gen_calls g' =
         (gen_calls g ++ [CStart] ++ shows 0 (length (gen_sequence g)) ++ [CStop])%list
    /\ started p' = false.
Proof.
  intros Hframe Hlt. destruct budget as [|b]; [lia|].
  cbn [consume]. unfold gen_next. rewrite Hframe.
  set (gs := at_frame FrameCreated [CStart] g).
  destruct (gen_sequence g !! 0%nat) as [v|] eqn:Hv.
  - destruct (loop_from_element 0 gs (start p) v Hv (started_start p))
      as (p1 & -> & Hs1).
    set (g1 := at_frame (FrameYielded 0) [CShow (Z.of_nat 0)] gs).
    destruct (consume_suspended body Hbody b 0 g1 (body v p1) eq_refl
                (Hbody v p1 Hs1)) as (g' & p' & Hc & Hf & Hcalls).
    rewrite Hc.
    change (gen_sequence g1) with (gen_sequence g) in *.
    assert (Hseq : gen_sequence g = v :: drop 1 (gen_sequence g))
      by exact (drop_S (gen_sequence g) v 0 Hv).
    assert (Hlen : length (gen_sequence g) = S (length (drop 1 (gen_sequence g))))
      by (now rewrite Hseq at 1).
    assert (Hb : (length (drop 1 (gen_sequence g)) <? b)%nat = true)
      by (apply Nat.ltb_lt; lia).
    rewrite Hb in Hcalls. destruct Hcalls as [Hcalls Hs'].
    exists g', p'. split; [|split; [exact Hf|split; [|exact Hs']]].
    + rewrite take_ge by lia. now rewrite <- Hseq.
    + rewrite Hcalls, Hlen, shows_cons. cbn [gen_calls g1 gs at_frame].
      now rewrite <- !app_assoc.
  - rewrite (loop_from_end 0 gs (start p) Hv).
    assert (Hnil : gen_sequence g = []) by (now destruct (gen_sequence g)).
    eexists _, _. split; [now rewrite Hnil|].
    split; [reflexivity|].
    split; [|apply started_stop]. rewrite Hnil. cbn.
    now rewrite <- app_assoc.
Qed.


End AdapterAgain.

(** ** More on the render states *)

Section StatesMore.
Context {env : Environment}.

(** X20: the bar is one character for each delimiter and for the arrow, one
    for each filled cell and two for each blank cell, so its width is not
    constant: with [filled] cells filled it is [3 + filled + 2 * (29 -
    filled)] characters, 61 for an empty bar and 33 for a full one, while
    the bar of a finished session has 32. *)
Theorem StateBar_width (kw : kwargs) :
  let filled := int_of_Q (proportional (current_percent kw) StateBar.size) in
  String.length (StateBar.display kw) =
    (3 + Z.to_nat filled + 2 * Z.to_nat (29 - filled))%nat
  /\ (filled = 0%Z -> String.length (StateBar.display kw) = 61%nat)
  /\ (filled = 30%Z -> String.length (StateBar.display kw) = 33%nat)
  /\ String.length (StateBar.done kw) = 32%nat.
Proof.
  intros filled.
  assert (Hlen : String.length (StateBar.display kw) =
                 (3 + Z.to_nat filled + 2 * Z.to_nat (29 - filled))%nat).
  { unfold StateBar.display. cbn [StateBar.left_right_delimiter]. fold filled.
    unfold StateBar.arrow, StateBar.size, str_mul.
    rewrite !length_append, !length_repeat_nat. cbn [String.length].
    replace (30 - filled - 1)%Z with (29 - filled)%Z by lia. lia. }
  split; [exact Hlen|]. split; [|split].
  - intros H0. rewrite Hlen, H0. reflexivity.
  - intros H30. rewrite Hlen, H30. reflexivity.
  - reflexivity.
Qed.

(** X21: the loading field looks at the call count only: it holds one, two
    or three dots, as the call count is 0, 1 or 2 modulo 3, filled up to
    three characters between the brackets; when done it is "[...]". The
    awaiting field is the same without the brackets, after the word
    "Awaiting", and "Awaiting... Done!" when done. *)
Theorem StateLoading_dots (kw : kwargs) :
  let dots := (kw_n_times kw mod 3 + 1)%Z in
  (1 <= dots <= 3)%Z
  /\ StateLoading_display kw = "[" ++ fill (str_mul "." dots) 3 ++ "]"
  /\ StateAwaiting_display kw =
       "Awaiting" ++ strip "[]" ("[" ++ fill (str_mul "." dots) 3 ++ "]")
  /\ StateLoading_done kw = "[...]"
  /\ StateAwaiting_done kw = "Awaiting... Done!".
Proof.
  intros dots.
  assert (Hd : (1 <= dots <= 3)%Z).
  { subst dots. pose proof (Z.mod_pos_bound (kw_n_times kw) 3). lia. }
  assert (Hl : StateLoading_display kw = "[" ++ fill (str_mul "." dots) 3 ++ "]").
  { unfold StateLoading_display, StateLoading_size. fold dots.
    now rewrite Z.min_l by lia. }
  split; [exact Hd|]. split; [exact Hl|]. split; [|split; reflexivity].
  unfold StateAwaiting_display, StateAwaiting_clean. now rewrite Hl.
Qed.

End StatesMore.

(** ** The title of the console and the constructor of [Progress] *)

Lemma ConsoleBase_title_app (title : string) (calls more : list event) :
  ConsoleBase_title title (calls ++ more) =
    ConsoleBase_title (ConsoleBase_title title calls) more.
Proof. unfold ConsoleBase_title. apply fold_left_app. Qed.

Lemma ConsoleBase_title_Cereja (calls : list event) :
  ConsoleBase_title "Cereja" calls = "Cereja".
Proof.
  unfold ConsoleBase_title. induction calls as [|ev calls IH]; [reflexivity|].
  cbn [fold_left]. now destruct ev.
Qed.

Lemma ConsoleBase_title_keeps (title : string) (calls : list event) :
  EvDisable ∉ calls -> ConsoleBase_title title calls = title.
Proof.
  unfold ConsoleBase_title. induction calls as [|ev calls IH]; intros Hnot;
    [reflexivity|].
  apply not_elem_of_cons in Hnot as [Hev Hnot].
  cbn [fold_left]. destruct ev; try (now apply IH). contradiction.
Qed.

Section TitleAndConstructor.
Context {env : Environment}.

(** X22: stopping a running session changes the title of its console to
    "Cereja", and nothing the session does afterwards brings the title it
    was created with back; the same happens when [start] finds the session
    running. A console that was never disabled keeps its title. *)
Theorem title_is_lost_on_stop
  (title : string) (self : ProgressBase) (later : list event) :
  (started self = true ->
     ConsoleBase_title title (console (stop self) ++ later) = "Cereja"
     /\ ConsoleBase_title title (console (start self) ++ later) = "Cereja")
  /\ (EvDisable ∉ console self ->
       ConsoleBase_title title (console self) = title).
Proof.
  split; [|apply ConsoleBase_title_keeps].
  intros Hs. split.
  - rewrite ConsoleBase_title_app, console_stop, Hs, ConsoleBase_title_app.
    cbn. apply ConsoleBase_title_Cereja.
  - unfold start, restart. rewrite Hs.
    cbn [console start_tail emit read_clock set_awaiting_update
         set_started_time set_started set_n_times].
    rewrite console_stop, Hs.
    rewrite !ConsoleBase_title_app. cbn. apply ConsoleBase_title_Cereja.
Qed.

(** The session [ProgressBase.__init__] makes, apart from its states. *)
Lemma ProgressBase_init_fields (console : list event) (maximum : Z)
  (states : states_arg) :
  let self := ProgressBase__init__ console maximum states in
  started self = false /\ n_times self = 0%Z /\ max_value self = maximum
  /\ exists rest, _states self = StateBar :: StatePercent :: StateTime :: rest.
Proof.
  unfold ProgressBase__init__.
  match goal with |- context [add_state _ ?s] =>
    destruct (add_state_cases states s) as [Hnew Hold] end.
  cbn [_states] in Hnew, Hold.
  destruct (filter _ (as_tuple states)) as [|x new] eqn:E.
  - rewrite Hold by reflexivity. cbn. repeat split. now exists [].
  - rewrite Hnew by discriminate. cbn. repeat split. now exists (x :: new).
Qed.


End TitleAndConstructor.

(** ** The further properties at concrete inputs *)

Section ConcreteMore.
Local Existing Instance sample_env.
Local Existing Instance sample_fmt.

Lemma stop_is_idempotent_witness :
  started (fresh 100) = false /\ stop (fresh 100) = fresh 100
  /\ stop (stop (start (fresh 100))) = stop (start (fresh 100)).
Proof.
  destruct (stop_is_idempotent (fresh 100)) as (_ & Hidle & _).
  destruct (stop_is_idempotent (start (fresh 100))) as (Htwice & _).
  split; [reflexivity|]. split; [exact (Hidle eq_refl) | exact Htwice].
Defined.

Lemma start_trace_witness :
  started (fresh 100) = false /\ started (start (fresh 100)) = true
  /\ console (start (fresh 100)) = [EvPersist; EvAwaitingStart]
  /\ console (start (start (fresh 100))) =
       [EvPersist; EvAwaitingStart; EvAwaitingJoin; EvDisable;
        EvPersist; EvAwaitingStart; EvPersist; EvAwaitingStart]
  /\ awaiting_started (console (start (start (fresh 100)))) = 3%nat
  /\ awaiting_joined (console (start (start (fresh 100)))) = 1%nat.
Proof.
  destruct (start_trace (fresh 100)) as (Hidle & _).
  destruct (start_trace (start (fresh 100))) as (_ & Hrunning & _).
  destruct (Hidle eq_refl) as (Hc1 & _).
  destruct (Hrunning eq_refl) as (Hc2 & Hs & Hj & _).
  split; [reflexivity|]. split; [reflexivity|]. split; [exact Hc1|].
  split; [exact Hc2|]. split; [exact Hs | exact Hj].
Defined.

Lemma show_progress_with_new_max_witness :
  50%Z <> max_value (fresh 100) /\ is_number (PyStr "many") = false
  /\ PyStr "many" <> PyNone
  /\ (exists self' line,
        show_progress 7 (PyInt 50) (fresh 100) = Return tt self'
        /\ console self' =
             (console (restart (fresh 100)) ++ [EvReplaceLast line])%list
        /\ n_times self' = 1%Z /\ max_value self' = 50%Z
        /\ started self' = true)
  /\ (exists e, show_progress 7 (PyStr "many") (fresh 100) = Raise e (fresh 100)
                /\ exc_cls e = ClsException).
Proof.
  assert (Hne : 50%Z <> max_value (fresh 100)) by discriminate.
  assert (Hbad : PyStr "many" <> PyNone) by discriminate.
  destruct (show_progress_with_new_max 7 50 (PyStr "many") (fresh 100))
    as (Hnew & Hraise).
  split; [exact Hne|]. split; [reflexivity|]. split; [exact Hbad|].
  split; [exact (Hnew Hne) | exact (Hraise eq_refl Hbad)].
Defined.

Lemma time_it_of_an_update_witness :
  started_time (start (fresh 100)) = Some (inject_Z 1000)
  /\ Qeq_bool (inject_Z 1000) 0 = false
  /\ started_time (fresh 100) = None
  /\ time_it (kwargs_for 5 (start (fresh 100))) =
       (time_time (clock_reads (start (fresh 100))) - inject_Z 1000)%Q
  /\ time_it (kwargs_for 5 (fresh 100)) =
       (time_time (clock_reads (fresh 100))
        - time_time (S (clock_reads (fresh 100))))%Q.
Proof.
  destruct (time_it_of_an_update 5 (start (fresh 100))) as (Hstarted & _).
  destruct (time_it_of_an_update 5 (fresh 100)) as (_ & Hnever).
  split; [reflexivity|]. split; [reflexivity|]. split; [reflexivity|].
  split; [exact (Hstarted (inject_Z 1000) eq_refl eq_refl) | exact (Hnever eq_refl)].
Defined.

Lemma add_state_only_appends_witness :
  StateLoading ∈ as_tuple (ArgStates [StateLoading; StateBar])
  /\ StateLoading ∈
       _states (add_state (ArgStates [StateLoading; StateBar]) (fresh 100))
  /\ _states (fresh 100) `prefix_of`
       _states (add_state (ArgStates [StateLoading; StateBar]) (fresh 100)).
Proof.
  assert (Hin : StateLoading ∈ as_tuple (ArgStates [StateLoading; StateBar]))
    by (apply list_elem_of_In; cbn; tauto).
  destruct (add_state_only_appends (ArgStates [StateLoading; StateBar]) (fresh 100))
    as (Hprefix & Hpassed & _).
  split; [exact Hin|]. split; [exact (Hpassed StateLoading Hin) | exact Hprefix].
Defined.

Lemma add_state_keeps_NoDup_witness :
  NoDup (_states (fresh 100))
  /\ NoDup (as_tuple (ArgStates [StateLoading; StateBar]))
  /\ NoDup (_states (add_state (ArgStates [StateLoading; StateBar]) (fresh 100))).
Proof.
  assert (H1 : NoDup (_states (fresh 100))).
  { refine (bool_decide_unpack (NoDup (_states (fresh 100))) _).
    vm_compute. exact I. }
  assert (H2 : NoDup (as_tuple (ArgStates [StateLoading; StateBar]))).
  { refine (bool_decide_unpack
              (NoDup (as_tuple (ArgStates [StateLoading; StateBar]))) _).
    vm_compute. exact I. }
  split; [exact H1|]. split; [exact H2|].
  exact (add_state_keeps_NoDup (ArgStates [StateLoading; StateBar]) (fresh 100) H1 H2).
Defined.

Lemma getitem_by_position_witness :
  (- Z.of_nat (length (_states (fresh 100))) <= -1
   < Z.of_nat (length (_states (fresh 100))))%Z
  /\ ~ (- Z.of_nat (length (_states (fresh 100))) <= -4
        < Z.of_nat (length (_states (fresh 100))))%Z
  /\ (exists st, __getitem__ (KInt (-1)) (fresh 100)
                   = Return (ItemState st) (fresh 100)
                 /\ last (_states (fresh 100)) = Some st)
  /\ __getitem__ (KInt (-4)) (fresh 100) =
       Raise (index_error "tuple index out of range") (fresh 100).
Proof.
  assert (Hin : (- Z.of_nat (length (_states (fresh 100))) <= -1
                 < Z.of_nat (length (_states (fresh 100))))%Z) by (cbn; lia).
  assert (Hout : ~ (- Z.of_nat (length (_states (fresh 100))) <= -4
                    < Z.of_nat (length (_states (fresh 100))))%Z) by (cbn; lia).
  destruct (getitem_by_position (-1) (fresh 100)) as (Hget & _).
  destruct (getitem_by_position (-4) (fresh 100)) as (_ & Hraise).
  destruct (Hget Hin) as (st & Hst & _ & Hlast).
  split; [exact Hin|]. split; [exact Hout|]. split; [|exact (Hraise Hout)].
  exists st. split; [exact Hst | exact (Hlast eq_refl)].
Defined.

Lemma setitem_then_getitem_witness :
  (- Z.of_nat (length (_states (fresh 100))) <= 0
   < Z.of_nat (length (_states (fresh 100))))%Z
  /\ ~ (- Z.of_nat (length (_states (fresh 100))) <= 3
        < Z.of_nat (length (_states (fresh 100))))%Z
  /\ (exists self',
        __setitem__ (KInt 0) StateLoading (fresh 100) = Return tt self'
        /\ __getitem__ (KInt 0) self' = Return (ItemState StateLoading) self')
  /\ __setitem__ (KInt 3) StateLoading (fresh 100) =
       Raise (index_error "list assignment index out of range") (fresh 100)
  /\ __setitem__ (KStr "bar") StateLoading (fresh 100) =
       Raise {| exc_cls := ClsException; exc_str := "isn't possible!" |} (fresh 100).
Proof.
  assert (Hin : (- Z.of_nat (length (_states (fresh 100))) <= 0
                 < Z.of_nat (length (_states (fresh 100))))%Z) by (cbn; lia).
  assert (Hout : ~ (- Z.of_nat (length (_states (fresh 100))) <= 3
                    < Z.of_nat (length (_states (fresh 100))))%Z) by (cbn; lia).
  assert (Hkey : forall j, KStr "bar" <> KInt j) by (intros j; discriminate).
  destruct (setitem_then_getitem 0 StateLoading (fresh 100)) as (Hset & _).
  destruct (setitem_then_getitem 3 StateLoading (fresh 100)) as (_ & Hraise & Hother).
  destruct (Hset Hin) as (self' & Hs & Hg & _).
  split; [exact Hin|]. split; [exact Hout|].
  split; [exists self'; split; [exact Hs | exact Hg]|].
  split; [exact (Hraise Hout) | exact (Hother (KStr "bar") Hkey)].
Defined.

Lemma getitem_by_name_witness :
  key_map "bar" = Some StateBar /\ StateBar ∈ _states (fresh 100)
  /\ key_map "loading" = Some StateLoading
  /\ (StateLoading ∉ _states (fresh 100))
  /\ key_map "speed" = None
  /\ __getitem__ (KStr "bar") (fresh 100) = Return (ItemState StateBar) (fresh 100)
  /\ (exists e, __getitem__ (KStr "loading") (fresh 100) = Raise e (fresh 100)
                /\ exc_cls e = ClsKeyError)
  /\ (exists e, __getitem__ (KStr "speed") (fresh 100) = Raise e (fresh 100)
                /\ exc_cls e = ClsKeyError).
Proof.
  assert (Hin : StateBar ∈ _states (fresh 100))
    by (apply list_elem_of_In; cbn; tauto).
  assert (Hnot : StateLoading ∉ _states (fresh 100)).
  { intros H. apply list_elem_of_In in H. cbn in H.
    destruct H as [H|[H|[H|[]]]]; discriminate. }
  destruct (getitem_by_name "bar" (fresh 100)) as (Hpresent & _).
  destruct (getitem_by_name "loading" (fresh 100)) as (_ & Habsent & _).
  destruct (getitem_by_name "speed" (fresh 100)) as (_ & _ & Hunknown & _).
  split; [reflexivity|]. split; [exact Hin|]. split; [reflexivity|].
  split; [exact Hnot|]. split; [reflexivity|].
  split; [exact (Hpresent StateBar eq_refl Hin)|].
  split; [exact (Habsent StateLoading eq_refl Hnot) | exact (Hunknown eq_refl)].
Defined.

Lemma getitem_by_tuple_witness :
  [2; -3; 0]%Z <> []
  /\ Forall (fun i => (- Z.of_nat (length (_states (fresh 100))) <= i
                       < Z.of_nat (length (_states (fresh 100))))%Z) [2; -3; 0]%Z
  /\ __getitem__ (KTuple [2; -3; 0]%Z) (fresh 100) =
       Return (ItemTuple [StateTime; StateBar; StateBar]) (fresh 100).
Proof.
  assert (Hne : [2; -3; 0]%Z <> []) by discriminate.
  assert (Hall : Forall (fun i => (- Z.of_nat (length (_states (fresh 100))) <= i
                       < Z.of_nat (length (_states (fresh 100))))%Z) [2; -3; 0]%Z)
    by (repeat constructor; cbn; lia).
  destruct (getitem_by_tuple [2; -3; 0]%Z (fresh 100)) as (Hget & _).
  destruct (Hget Hne Hall) as (picked & Hpicked & _).
  split; [exact Hne|]. split; [exact Hall|].
  assert (Epicked : picked = [StateTime; StateBar; StateBar]).
  { pose proof Hpicked as E. vm_compute in E. now inversion E. }
  rewrite <- Epicked. exact Hpicked.
Defined.

Lemma with_block_paths_witness :
  (fun s => BlockReturn 7%Z s) (__enter__ (fresh 100))
    = BlockReturn 7%Z (__enter__ (fresh 100))
  /\ (fun s => @BlockRaise Z boom at_job_12 s) (__enter__ (fresh 100))
       = BlockRaise boom at_job_12 (__enter__ (fresh 100))
  /\ (fun s => @BlockRaise Z lone_brace at_job_12 s) (__enter__ (fresh 100))
       = BlockRaise lone_brace at_job_12 (__enter__ (fresh 100))
  /\ with_ (fun s => BlockReturn 7%Z s) (fresh 100) =
       Return (Some 7%Z) (stop (__enter__ (fresh 100)))
  /\ with_ (fun s => @BlockRaise Z boom at_job_12 s) (fresh 100) =
       Raise boom (stop (emit (EvError "job.py:12: boom") (__enter__ (fresh 100))))
  /\ with_ (fun s => @BlockRaise Z lone_brace at_job_12 s) (fresh 100) =
       Raise (value_error "Single '{' encountered in format string")
             (emit (EvError "job.py:12: {") (__enter__ (fresh 100))).
Proof.
  destruct (with_block_paths (fun s => BlockReturn 7%Z s) (fresh 100))
    as (_ & Hret & _).
  destruct (with_block_paths
              (fun s => @BlockRaise Z boom at_job_12 s) (fresh 100))
    as (_ & _ & Hboom & _).
  destruct (with_block_paths
              (fun s => @BlockRaise Z lone_brace at_job_12 s) (fresh 100))
    as (_ & _ & Hbrace & _).
  split; [reflexivity|]. split; [reflexivity|]. split; [reflexivity|].
  split; [exact (Hret 7%Z (__enter__ (fresh 100)) eq_refl)|].
  split.
  - rewrite (Hboom boom at_job_12 (__enter__ (fresh 100)) eq_refl).
    vm_compute. reflexivity.
  - rewrite (Hbrace lone_brace at_job_12 (__enter__ (fresh 100)) eq_refl).
    vm_compute. reflexivity.
Defined.

Lemma repr_example_view_is_an_update_witness :
  _states (fresh 10) <> []
  /\ fst (__repr___example_view (fresh 10)) =
       join " - " (map (fun st => done st (kwargs_for 10 (fresh 10)))
                       (_states (fresh 10)))
       ++ " - " ++ "Done! " ++ done_unicode
  /\ fst (__repr___example_view (fresh 10)) =
       "[==============================] - 100.00% - (clock) -1s total - Done! (check)"
  /\ n_times (snd (__repr___example_view (fresh 10))) = 1%Z.
Proof.
  assert (Hne : _states (fresh 10) <> []) by discriminate.
  destruct (repr_example_view_is_an_update (fresh 10)) as (_ & Hline & Hn & _).
  split; [exact Hne|]. split; [exact (Hline Hne)|].
  split; [rewrite (Hline Hne); vm_compute; reflexivity | exact Hn].
Defined.


Lemma wrapping_sets_the_maximum_witness :
  Z.of_nat (length ["a"; "b"; "c"]) <> max_value (fresh 100)
  /\ (exists it progress',
        ProgressIterator__init__ ["a"; "b"; "c"] (fresh 100) = Return it progress'
        /\ max_value progress' = 3%Z
        /\ started progress' = true).
Proof.
  assert (Hne : Z.of_nat (length ["a"; "b"; "c"]) <> max_value (fresh 100))
    by discriminate.
  destruct (wrapping_sets_the_maximum ["a"; "b"; "c"] (fresh 100))
    as (it & progress' & Hinit & _ & Hmax & _ & Hrestart).
  destruct (Hrestart Hne) as (Hs & _).
  split; [exact Hne|]. exists it, progress'.
  split; [exact Hinit|]. split; [exact Hmax | exact Hs].
Defined.


Lemma StateBar_width_witness :
  int_of_Q (proportional (current_percent (kw_of_percent 0)) StateBar.size) = 0%Z
  /\ int_of_Q (proportional (current_percent (kw_of_percent 100)) StateBar.size)
     = 30%Z
  /\ String.length (StateBar.display (kw_of_percent 0)) = 61%nat
  /\ String.length (StateBar.display (kw_of_percent 100)) = 33%nat.
Proof.
  destruct (StateBar_width (kw_of_percent 0)) as (_ & Hempty & _).
  destruct (StateBar_width (kw_of_percent 100)) as (_ & _ & Hfull & _).
  split; [reflexivity|]. split; [reflexivity|].
  split; [exact (Hempty eq_refl) | exact (Hfull eq_refl)].
Defined.

Lemma title_is_lost_on_stop_witness :
  started (start (fresh 100)) = true
  /\ (EvDisable ∉ console (start (fresh 100)))
  /\ ConsoleBase_title "Download" (console (start (fresh 100))) = "Download"
  /\ ConsoleBase_title "Download"
       (console (stop (start (fresh 100))) ++ [EvPersist; EvLog "again"])
     = "Cereja".
Proof.
  assert (Hnot : EvDisable ∉ console (start (fresh 100))).
  { intros H. apply list_elem_of_In in H. cbn in H.
    destruct H as [H|[H|[]]]; discriminate. }
  destruct (title_is_lost_on_stop "Download" (start (fresh 100))
              [EvPersist; EvLog "again"]) as (Hlost & Hkept).
  destruct (Hlost eq_refl) as (Hstop & _).
  split; [reflexivity|]. split; [exact Hnot|].
  split; [exact (Hkept Hnot) | exact Hstop].
Defined.

End ConcreteMore.

(** ** The two copies of [__exit__] *)

Section TwoCopies.
Context {env : Environment} {fmt : Formatting}.

(** X24: the [__exit__] of [lab/console.py] and the one of
    [cereja/display.py] do the same on every way out of a block but one: for
    a [DeprecationWarning] the newer copy stops the session without a word,
    and the older one hands the report to [console.error] first; it then
    stops the session, or, when the formatting of the report raises, raises
    that exception and leaves the session as it is. *)
Theorem exit_copies_differ_on_deprecation
  (exc : option (exn * traceback)) (self : ProgressBase) :
  (match exc with
   | Some (e, _) => isinstance_DeprecationWarning e = false
   | None => True
   end -> LabConsole.__exit__ exc self = __exit__ exc self)
  /\ (forall e tb, exc = Some (e, tb) ->
       isinstance_DeprecationWarning e = true ->
       let report := os_path_basename (co_filename tb) ++ ":"
                     ++ str_of_Z (tb_lineno tb) ++ ": " ++ exc_str e in
       let tail := if started self then [EvAwaitingJoin; EvDisable] else [] in
       __exit__ exc self = Return false (stop self)
       /\ console (stop self) = (console self ++ tail)%list
       /\ LabConsole.__exit__ exc self =
            match ConsoleBase_error_raises report with
            | Some failure => Raise failure (emit (EvError report) self)
            | None => Return false (stop (emit (EvError report) self))
            end
       /\ console (stop (emit (EvError report) self)) =
            (console self ++ [EvError report] ++ tail)%list).
Proof.
  split.
  - destruct exc as [[e tb]|]; [|reflexivity].
    intros HD. unfold LabConsole.__exit__, __exit__. rewrite HD.
    cbn [negb]. now rewrite andb_true_r.
  - intros e tb -> HD report tail.
    assert (HE : isinstance_Exception e = true).
    { unfold isinstance_Exception. unfold isinstance_DeprecationWarning in HD.
      destruct (exc_cls e); try discriminate; reflexivity. }
    split; [|split; [|split]].
    + apply exit_without_report. rewrite HD. cbn [negb]. apply andb_false_r.
    + apply console_stop.
    + unfold LabConsole.__exit__, console_error. rewrite HE. fold report.
      now destruct (ConsoleBase_error_raises report).
    + rewrite console_stop. cbn [console emit started]. fold tail.
      now rewrite <- app_assoc.
Qed.

End TwoCopies.

Section ConcreteCopies.
Local Existing Instance sample_env.
Local Existing Instance sample_fmt.

Lemma exit_copies_differ_on_deprecation_witness :
  isinstance_DeprecationWarning boom = false
  /\ isinstance_DeprecationWarning old_api = true
  /\ LabConsole.__exit__ (Some (boom, at_job_12)) (start (fresh 100))
     = __exit__ (Some (boom, at_job_12)) (start (fresh 100))
  /\ __exit__ (Some (old_api, at_job_12)) (start (fresh 100)) =
       Return false (stop (start (fresh 100)))
  /\ console (stop (start (fresh 100))) =
       [EvPersist; EvAwaitingStart; EvAwaitingJoin; EvDisable]
  /\ LabConsole.__exit__ (Some (old_api, at_job_12)) (start (fresh 100)) =
       Return false
         (stop (emit (EvError "job.py:12: Will be deprecated") (start (fresh 100))))
  /\ console (stop (emit (EvError "job.py:12: Will be deprecated")
                         (start (fresh 100)))) =
       [EvPersist; EvAwaitingStart;
        EvError "job.py:12: Will be deprecated"; EvAwaitingJoin; EvDisable].
Proof.
  destruct (exit_copies_differ_on_deprecation
              (Some (boom, at_job_12)) (start (fresh 100))) as (Hsame & _).
  destruct (exit_copies_differ_on_deprecation
              (Some (old_api, at_job_12)) (start (fresh 100))) as (_ & Hdiffer).
  destruct (Hdiffer old_api at_job_12 eq_refl eq_refl)
    as (Hnew & Hquiet & Hlab & Hloud).
  split; [reflexivity|]. split; [reflexivity|].
  split; [exact (Hsame eq_refl)|]. split; [exact Hnew|].
  split; [exact Hquiet|].
  split; [rewrite Hlab; vm_compute; reflexivity|].
  cbv zeta in Hloud. vm_compute in Hloud. vm_compute. exact Hloud.
Defined.

End ConcreteCopies.
